(** * ConsoleController: a shallow embedding of [ConsoleController.cpp]

    The controller wraps two host facilities chosen at build time
    ([#ifdef _WIN32]): the Win32 console with [conio.h], and curses.
    Both branches of every [#ifdef] are modelled; a [platform] argument
    selects the branch.

    Conventions.
    - [int] values are [Z]; arithmetic the source performs on [int] is
      wrapped to 32 bits two's complement with [wrap_int].
    - [char] values are [ascii] (eight bits).  Whether [char] is signed only
      matters where a [char] is promoted to [int]; that promotion is
      [int_of_char], which takes the signedness as an argument.
    - [std::string] is [list ascii].
    - [double] values are the binary64 floats of the kernel ([PrimFloat]).
    - Code that reaches undefined behaviour (an array written outside its
      bounds, a value-returning function left without [return]) yields
      [Undefined]; a blocking read on an exhausted keyboard script yields
      [Blocked]. *)

From Stdlib Require Import ZArith Lia List Ascii Bool.
From Stdlib Require Floats Uint63.
From stdpp Require Import base option list gmap.
Import ListNotations.

Local Open Scope Z_scope.

(* ================================================================= *)
(** * Part I: the model *)
(* ================================================================= *)

(** ** Machine integers and characters *)

Definition INT_MAX : Z := 2147483647.
Definition INT_MIN : Z := -2147483648.

(** Two's complement wrap of a 32-bit [int]. *)
Definition wrap_int (z : Z) : Z := (z + 2147483648) mod 4294967296 - 2147483648.

Definition fits_int (z : Z) : Prop := INT_MIN <= z <= INT_MAX.

(** Conversion of an [int] to a 16-bit [short]. *)
Definition to_short (z : Z) : Z := (z + 32768) mod 65536 - 32768.

(** [(char)i]: the low byte of [i]. *)
Definition to_char (i : Z) : ascii := ascii_of_N (Z.to_N (i mod 256)).

(** Integral promotion of a [char]. *)
Definition int_of_char (char_signed : bool) (c : ascii) : Z :=
  let n := Z.of_N (N_of_ascii c) in
  if char_signed && (128 <=? n) then n - 256 else n.

Definition char_BS : ascii := "008"%char.   (* '\b' *)
Definition char_NL : ascii := "010"%char.   (* '\n' *)
Definition char_CR : ascii := "013"%char.   (* '\r' *)
Definition char_SP : ascii := " "%char.
Definition char_BEL : ascii := "007"%char.  (* '\a' *)

Definition ascii_eqb (a b : ascii) : bool := Ascii.eqb a b.

(** ** Outcomes of running a piece of the program *)

Inductive outcome (A : Type) : Type :=
| Ok (a : A)
| Blocked
| Undefined.
Arguments Ok {A} a.
Arguments Blocked {A}.
Arguments Undefined {A}.

#[global] Instance outcome_ret : MRet outcome := fun A a => Ok a.
#[global] Instance outcome_bind : MBind outcome := fun A B f m =>
  match m with
  | Ok a => f a
  | Blocked => Blocked
  | Undefined => Undefined
  end.

(** ** Build configuration *)

Inductive platform : Type := Win32 | Posix.

(** The special key codes come from [ConsoleController.h], which is not part
    of the sources at hand; they are carried as build parameters, together
    with the signedness of [char]. *)
Record build : Type := {
  target : platform;
  char_signed : bool;
  ARROW_UP : Z;
  ARROW_DOWN : Z;
  ARROW_LEFT : Z;
  ARROW_RIGHT : Z
}.

(** ** Static state, handles, and the host calls of the lifecycle *)

Record COLOR : Type := {
  foreground : Z;
  background : Z;
  foreBold : bool;
  backBold : bool
}.

Definition COLOR_default : COLOR :=
  {| foreground := 0; background := 0; foreBold := false; backBold := false |}.

(** Calls into the host made by the constructor and the destructor. *)
Inductive host_call : Type :=
| GetStdHandle   (* hStdout = GetStdHandle(STD_OUTPUT_HANDLE) *)
| SystemCls      (* system("cls") *)
| Initscr
| Cbreak
| Noecho
| Keypad
| StartColor
| Clear          (* clear() *)
| Endwin.

(** The class statics, and the part of the host they drive.  [colors] exists
    in the Win32 build only and [foreBoldFlags] in the POSIX build only; the
    other one is carried along untouched.  [pairs] is the colour pair table
    kept by curses, which only [init_pair] writes, and [calls] the host calls
    issued so far, oldest first. *)
Record statics : Type := {
  classInstances : Z;
  colors : list COLOR;
  foreBoldFlags : list bool;
  pairs : gmap Z (Z * Z);
  calls : list host_call
}.

Definition set_classInstances (n : Z) (g : statics) : statics :=
  {| classInstances := n; colors := colors g; foreBoldFlags := foreBoldFlags g;
     pairs := pairs g; calls := calls g |}.

Definition set_colors (t : list COLOR) (g : statics) : statics :=
  {| classInstances := classInstances g; colors := t;
     foreBoldFlags := foreBoldFlags g; pairs := pairs g; calls := calls g |}.

Definition set_foreBoldFlags (t : list bool) (g : statics) : statics :=
  {| classInstances := classInstances g; colors := colors g;
     foreBoldFlags := t; pairs := pairs g; calls := calls g |}.

Definition set_pairs (t : gmap Z (Z * Z)) (g : statics) : statics :=
  {| classInstances := classInstances g; colors := colors g;
     foreBoldFlags := foreBoldFlags g; pairs := t; calls := calls g |}.

Definition host (cs : list host_call) (g : statics) : statics :=
  {| classInstances := classInstances g; colors := colors g;
     foreBoldFlags := foreBoldFlags g; pairs := pairs g;
     calls := calls g ++ cs |}.

(** Size of both static tables. *)
Definition TABLE_SIZE : Z := 256.

Definition in_table (i : Z) : bool := (0 <=? i) && (i <? TABLE_SIZE).

(** The statics as the program starts: zero-initialised. *)
Definition statics_init : statics :=
  {| classInstances := 0;
     colors := replicate 256 COLOR_default;
     foreBoldFlags := replicate 256 false;
     pairs := ∅;
     calls := [] |}.

(** Both tables have their declared size. *)
Definition tables_sized (g : statics) : Prop :=
  length (colors g) = 256%nat /\ length (foreBoldFlags g) = 256%nat.

(** Per-handle data members. *)
Record handle : Type := {
  throttleInitialized : bool;
  throttleLast : Z
}.

(** [cls()] as the lifecycle sees it. *)
Definition cls_call (p : platform) : host_call :=
  match p with Win32 => SystemCls | Posix => Clear end.

(** What the constructor does inside [if (classInstances == 0)], before the
    table loop. *)
Definition setup_calls (p : platform) : list host_call :=
  match p with
  | Win32 => [GetStdHandle; cls_call Win32]
  | Posix => [Initscr; Cbreak; Noecho; Keypad; StartColor; cls_call Posix]
  end.

(** What the destructor does inside [if (classInstances == 0)]. *)
Definition teardown_calls (p : platform) : list host_call :=
  match p with
  | Win32 => [cls_call Win32]
  | Posix => [cls_call Posix; Endwin]
  end.

(** [for (int i = 0; i < 256; i++) table[i] = v;] *)
Definition fill_table {A : Type} (v : A) (t : list A) : list A :=
  fold_left (fun acc i => <[i := v]> acc) (seq 0 256) t.

Definition reset_tables (p : platform) (g : statics) : statics :=
  match p with
  | Win32 => set_colors (fill_table COLOR_default (colors g)) g
  | Posix => set_foreBoldFlags (fill_table false (foreBoldFlags g)) g
  end.

(** [ConsoleController::ConsoleController()].  [junk] is the indeterminate
    initial content of [throttleLast], which the constructor does not set. *)
Definition ConsoleController_new (p : platform) (junk : Z) (g : statics)
  : handle * statics :=
  let h := {| throttleInitialized := false; throttleLast := junk |} in
  let g1 :=
    if classInstances g =? 0
    then reset_tables p (host (setup_calls p) g)
    else g in
  (h, set_classInstances (wrap_int (classInstances g1 + 1)) g1).

(** [ConsoleController::~ConsoleController()]. *)
Definition ConsoleController_delete (p : platform) (g : statics) : statics :=
  let g1 := set_classInstances (wrap_int (classInstances g - 1)) g in
  if classInstances g1 =? 0
  then host (teardown_calls p) g1
  else g1.

(** A program, as far as the lifecycle is concerned: handles being
    constructed and destroyed. *)
Inductive lifecycle_op : Type := Construct | Destroy.

Definition lifecycle_step (p : platform) (g : statics) (op : lifecycle_op)
  : statics :=
  match op with
  | Construct => snd (ConsoleController_new p 0 g)
  | Destroy => ConsoleController_delete p g
  end.

Definition lifecycle_run (p : platform) (ops : list lifecycle_op) (g : statics)
  : statics :=
  fold_left (lifecycle_step p) ops g.



(** ** The colour subsystem *)

(** What curses reports of the terminal once colours are started: the
    globals [COLORS] and [COLOR_PAIRS]. *)
Record curses_caps : Type := {
  COLORS : Z;
  COLOR_PAIRS : Z
}.

(** The pairs and colours curses accepts in [init_pair]: a pair from 1 to
    [COLOR_PAIRS - 1], colours from 0 to [COLORS - 1]. *)
Definition pair_accepted (caps : curses_caps) (pair f b : Z) : bool :=
  (1 <=? pair) && (pair <? COLOR_PAIRS caps) &&
  (0 <=? f) && (f <? COLORS caps) &&
  (0 <=? b) && (b <? COLORS caps).

(** [int init_pair(short pair, short f, short b)] of curses: the arguments
    are narrowed to [short]; an accepted pair replaces the entry of the pair
    table, a refused one leaves the table as it is and returns [ERR], which
    the caller below does not look at. *)
Definition init_pair (caps : curses_caps) (pair f b : Z) (g : statics)
  : statics :=
  let pair := to_short pair in
  let f := to_short f in
  let b := to_short b in
  if pair_accepted caps pair f b
  then set_pairs (<[pair := (f, b)]> (pairs g)) g
  else g.

(** [ConsoleController::initColor].  The table has [TABLE_SIZE] slots; a
    store outside them is undefined. *)
Definition initColor (p : platform) (caps : curses_caps)
    (colorId fg bg : Z) (fBold bBold : bool) (g : statics) : outcome statics :=
  match p with
  | Win32 =>
      let newColor :=
        {| foreground := fg; background := bg;
           foreBold := fBold; backBold := bBold |} in
      if in_table colorId
      then Ok (set_colors (<[Z.to_nat colorId := newColor]> (colors g)) g)
      else Undefined
  | Posix =>
      let g1 :=
        if bBold
        then init_pair caps (wrap_int (colorId + 1)) fg (wrap_int (bg + 8)) g
        else init_pair caps (wrap_int (colorId + 1)) fg bg g in
      if in_table colorId
      then Ok (set_foreBoldFlags
                 (<[Z.to_nat colorId := fBold]> (foreBoldFlags g1)) g1)
      else Undefined
  end.


(** ** The keyboard *)

(** The keyboard as the host presents it: the results that successive
    [_getch()] (Win32) or [getch()] (curses) calls will produce while keys
    are pending, and the curses input delay set by [timeout]. *)
Record tty : Type := {
  pending : list Z;
  delay : Z
}.

(** curses [ERR]. *)
Definition ERR : Z := -1.

(** curses [timeout(d)]: negative blocks, zero polls. *)
Definition timeout (d : Z) (t : tty) : tty :=
  {| pending := pending t; delay := d |}.

(** curses [getch()]: with no key pending it waits when the delay is
    negative and yields [ERR] otherwise. *)
Definition getch (t : tty) : outcome (Z * tty) :=
  match pending t with
  | k :: r => Ok (k, {| pending := r; delay := delay t |})
  | [] => if delay t <? 0 then Blocked else Ok (ERR, t)
  end.

(** conio [_getch()]: always waits. *)
Definition _getch (t : tty) : outcome (Z * tty) :=
  match pending t with
  | k :: r => Ok (k, {| pending := r; delay := delay t |})
  | [] => Blocked
  end.

(** conio [_kbhit()]. *)
Definition _kbhit (t : tty) : bool :=
  match pending t with
  | [] => false
  | _ :: _ => true
  end.

(** [posix_translateKey()].  After the two [if]s control reaches the closing
    brace of a function returning [int] without a [return]. *)
Definition posix_translateKey (t : tty) : outcome (Z * tty) :=
  '(ch, t1) ← getch t;
  if ch =? ERR then Ok (0, t1)
  else if ch =? 13 (* '\r' *) then Ok (10 (* '\n' *), t1)
  else Undefined.

(** The [switch (_getch())] of the Win32 [waitForKey]; [None] when no case
    matches and control leaves the [switch]. *)
Definition win32_arrow (b : build) (code : Z) : option Z :=
  if (code =? 65) || (code =? 72) then Some (ARROW_UP b)          (* 0x41 0x48 *)
  else if (code =? 66) || (code =? 80) then Some (ARROW_DOWN b)   (* 0x42 0x50 *)
  else if (code =? 67) || (code =? 77) then Some (ARROW_RIGHT b)  (* 0x43 0x4D *)
  else if (code =? 68) || (code =? 75) then Some (ARROW_LEFT b)   (* 0x44 0x4B *)
  else None.

(** [ConsoleController::waitForKey()]. *)
Definition waitForKey (b : build) (t : tty) : outcome (Z * tty) :=
  match target b with
  | Win32 =>
      '(r, t1) ← _getch t;
      let result := to_char r in                        (* char result = _getch(); *)
      let result_int := int_of_char (char_signed b) result in
      if ascii_eqb result char_CR then Ok (int_of_char (char_signed b) char_NL, t1)
      else if (result_int =? 0) || (result_int =? 224)  (* 0xE0 *)
      then
        '(code, t2) ← _getch t1;
        match win32_arrow b code with
        | Some key => Ok (key, t2)
        | None => Ok (result_int, t2)
        end
      else Ok (result_int, t1)
  | Posix => posix_translateKey (timeout (-1) t)
  end.

(** [ConsoleController::getKey()]. *)
Definition getKey (b : build) (t : tty) : outcome (Z * tty) :=
  match target b with
  | Win32 => if _kbhit t then waitForKey b t else Ok (0, t)
  | Posix => posix_translateKey (timeout 0 t)
  end.

(** [n] successive [waitForKey()] calls. *)
Fixpoint waitForKeys (b : build) (n : nat) (t : tty) : outcome (list Z * tty) :=
  match n with
  | O => Ok ([], t)
  | S n' =>
      '(k, t1) ← waitForKey b t;
      '(ks, t2) ← waitForKeys b n' t1;
      Ok (k :: ks, t2)
  end.

(** ** The screen *)

Record COORD_2D : Type := { x : Z; y : Z }.

(** The host's screen, as far as the controller uses it.  [con_cell] is not
    called by the controller; it observes what a cell shows. *)
Class Console (T : Type) : Type := {
  con_size : T -> COORD_2D;               (* columns, rows *)
  con_cursor : T -> COORD_2D;             (* column, row *)
  con_move : Z -> Z -> T -> T;            (* column, row *)
  con_write : list ascii -> T -> T;
  con_cell : T -> Z -> Z -> ascii         (* column, row *)
}.

Definition inside (size : COORD_2D) (px py : Z) : Prop :=
  0 <= px < x size /\ 0 <= py < y size.

(** What the proofs about the line editor need of a host screen: a cursor
    sent to a cell of the window arrives there; neither moving nor writing
    changes the window size; moving does not change what the cells show;
    writing a blank shows a blank where the cursor was. *)
Class ConsoleLaws (T : Type) `{Console T} : Prop := {
  con_move_cursor : forall (c : T) px py,
    inside (con_size c) px py ->
    con_cursor (con_move px py c) = {| x := px; y := py |};
  con_move_size : forall (c : T) px py, con_size (con_move px py c) = con_size c;
  con_write_size : forall (c : T) s, con_size (con_write s c) = con_size c;
  con_move_cell : forall (c : T) px py i j,
    con_cell (con_move px py c) i j = con_cell c i j;
  con_write_blank : forall (c : T),
    con_cell (con_write [char_SP] c) (x (con_cursor c)) (y (con_cursor c))
    = char_SP
}.

Section Screen.
Context {T : Type} `{Console T}.

(** [ConsoleController::getWindowSize()], [getCurPos()], [moveCursor(x, y)]
    and [output(std::string)]: each forwards to the host. *)
Definition getWindowSize (c : T) : COORD_2D := con_size c.
Definition getCurPos (c : T) : COORD_2D := con_cursor c.
Definition moveCursor (px py : Z) (c : T) : T := con_move px py c.
Definition output (s : list ascii) (c : T) : T := con_write s c.

(** [output(char)], the overload the callers of [output(' ')] use; it is
    declared in the header only and taken to print the one character. *)
Definition output_char (ch : ascii) (c : T) : T := output [ch] c.

End Screen.

(** ** The line editor *)

Record world (T : Type) : Type := {
  keys : tty;
  screen : T
}.
Arguments keys {T} w.
Arguments screen {T} w.

(** One pass through the body of [while (true)]. *)
Inductive pass (T : Type) : Type :=
| Continue (str : list ascii) (w : world T)
| Leave (input : ascii) (str : list ascii) (w : world T).   (* goto soSueMe *)
Arguments Continue {T} str w.
Arguments Leave {T} input str w.

Section LineEditor.
Context {T : Type} `{Console T}.

(** [ConsoleController::echoKey()]. *)
Definition echoKey (b : build) (w : world T) : outcome (Z * world T) :=
  '(i, t1) ← waitForKey b (keys w);
  Ok (i, {| keys := t1; screen := output_char (to_char i) (screen w) |}).

(** The screen after [echoKey] has echoed each of [ks] in turn. *)
Definition echo_all (ks : list Z) (c : T) : T :=
  fold_left (fun acc k => output_char (to_char k) acc) ks c.

(** The backspace branch, from [if (!str.empty())] to the final
    [moveCursor(pos.x, pos.y)]. *)
Definition backspace (pos : COORD_2D) (str : list ascii) (c : T)
  : list ascii * T :=
  let '(str1, c1) :=
    match str with
    | _ :: _ =>
        let popped := removelast str in
        if x pos =? 0
        then (popped,
              moveCursor (wrap_int (x (getWindowSize c) - 1))
                         (wrap_int (y pos - 1)) c)
        else (popped, moveCursor (wrap_int (x pos - 1)) (y pos) c)
    | [] => (str, moveCursor (x pos) (y pos) c)
    end in
  let pos1 := getCurPos c1 in
  let c2 := output_char char_SP c1 in
  (str1, moveCursor (x pos1) (y pos1) c2).

Definition waitForInput_pass (b : build) (delineators : list ascii)
    (str : list ascii) (w : world T) : outcome (pass T) :=
  let pos := getCurPos (screen w) in
  '(i, w1) ← echoKey b w;
  let input := to_char i in                           (* input = echoKey(); *)
  if ascii_eqb input char_BS then
    let '(str1, c1) := backspace pos str (screen w1) in
    Ok (Continue str1 {| keys := keys w1; screen := c1 |})
  else if existsb (ascii_eqb input) delineators then
    Ok (Leave input str w1)
  else
    Ok (Continue (str ++ [input]) w1).

(** [while (true) { ... }].  Every pass takes at least one pending key, so
    the fuel handed over by [waitForInput] is never used up. *)
Fixpoint waitForInput_loop (fuel : nat) (b : build) (delineators : list ascii)
    (str : list ascii) (w : world T) : outcome (ascii * list ascii * world T) :=
  match fuel with
  | O => Blocked
  | S fuel' =>
      r ← waitForInput_pass b delineators str w;
      match r with
      | Continue str1 w1 => waitForInput_loop fuel' b delineators str1 w1
      | Leave input str1 w1 => Ok (input, str1, w1)
      end
  end.

(** [while (echoKey() != '\n');] -- the comparison is on the [int]. *)
Fixpoint skip_to_newline (fuel : nat) (b : build) (w : world T)
  : outcome (world T) :=
  match fuel with
  | O => Blocked
  | S fuel' =>
      '(i, w1) ← echoKey b w;
      if i =? int_of_char (char_signed b) char_NL
      then Ok w1
      else skip_to_newline fuel' b w1
  end.

(** [ConsoleController::waitForInput(std::string delineators)]. *)
Definition waitForInput (b : build) (delineators : list ascii) (w : world T)
  : outcome (list ascii * world T) :=
  let fuel := S (length (pending (keys w))) in
  '(input, str, w1) ← waitForInput_loop fuel b delineators [] w;
  w2 ← (if ascii_eqb input char_NL then Ok w1 else skip_to_newline fuel b w1);
  Ok (str, w2).

(** [waitForInput(char delineator)] and [waitForInput()]. *)
Definition waitForInput_char (b : build) (delineator : ascii) (w : world T)
  : outcome (list ascii * world T) :=
  waitForInput b [delineator] w.

Definition waitForInput_line (b : build) (w : world T)
  : outcome (list ascii * world T) :=
  waitForInput b [char_NL] w.

End LineEditor.

(** ** Throttling *)

(** The processor clock and the sleeps requested so far.  The [n]-th call of
    [clock()] in the run returns [ticks n]. *)
Record timing : Type := {
  clock_calls : nat;
  slept : list Z
}.

(** Conversion of an integer to [double], rounding to nearest.  The
    argument is the value of a [long] or a [clock_t]. *)
Definition double_of_Z (z : Z) : PrimFloat.float :=
  if z <? 0
  then PrimFloat.opp (PrimFloat.of_uint63 (Uint63.of_Z (- z)))
  else PrimFloat.of_uint63 (Uint63.of_Z z).

(** Conversion of a [double] to an integer: the fraction is dropped.  For a
    value that is no number the conversion is undefined in the source; 0
    stands for it here. *)
Definition Z_of_double (f : PrimFloat.float) : Z :=
  match FloatOps.Prim2SF f with
  | SpecFloat.S754_finite sign m e =>
      let v := if 0 <=? e then Z.pos m * 2 ^ e else Z.pos m / 2 ^ (- e) in
      if sign then - v else v
  | _ => 0
  end.

(** [throttleLast += ms / 1000.0 * CLOCKS_PER_SEC]: the new [throttleLast].
    The field is declared in the header; it is taken to be a [clock_t], an
    integer, so that the sum, computed in [double], loses its fraction when
    it is stored. *)
Definition tick_add (CLOCKS_PER_SEC : Z) (throttleLast ms : Z) : Z :=
  Z_of_double
    (PrimFloat.add (double_of_Z throttleLast)
       (PrimFloat.mul
          (PrimFloat.div (double_of_Z ms) (double_of_Z 1000))
          (double_of_Z CLOCKS_PER_SEC))).

Section Throttle.
Variable ticks : nat -> Z.
Variable CLOCKS_PER_SEC : Z.

Definition clock (e : timing) : Z * timing :=
  (ticks (clock_calls e),
   {| clock_calls := S (clock_calls e); slept := slept e |}).

(** [ConsoleController::sleepMs(ms)]: the request is recorded. *)
Definition sleepMs (ms : Z) (e : timing) : timing :=
  {| clock_calls := clock_calls e; slept := slept e ++ [ms] |}.

(** [ConsoleController::throttle(ms)]. *)
Definition throttle (ms : Z) (h : handle) (e : timing) : handle * timing :=
  if throttleInitialized h then
    let h1 := {| throttleInitialized := true;
                 throttleLast := tick_add CLOCKS_PER_SEC (throttleLast h) ms |} in
    let '(now, e1) := clock e in
    if throttleLast h1 >? now then
      let '(now', e2) := clock e1 in
      (h1, sleepMs (throttleLast h1 - now') e2)
    else (h1, e1)
  else
    let '(now, e1) := clock e in
    ({| throttleInitialized := true; throttleLast := now |}, e1).

(** Successive [throttle] calls on one handle. *)
Definition throttle_all (intervals : list Z) (h : handle) (e : timing)
  : handle * timing :=
  fold_left (fun st ms => throttle ms (fst st) (snd st)) intervals (h, e).

End Throttle.

(** ** A concrete screen *)

(** A character grid without scrolling, used to run the line editor on sample
    input.  A character fills the cursor's cell and moves the cursor one cell
    on, to the start of the next row after the last column; backspace moves
    it one cell left, carriage return to column 0, newline to the start of
    the next row; the bell shows nothing and moves nothing.  On the last row
    the cursor stays on that row.  A move to a cell outside the window is
    refused. *)
Record grid : Type := {
  g_size : COORD_2D;
  g_cursor : COORD_2D;
  g_cells : Z -> Z -> ascii
}.

Definition inside_b (size : COORD_2D) (px py : Z) : bool :=
  (0 <=? px) && (px <? x size) && (0 <=? py) && (py <? y size).

Definition grid_newline (g : grid) : grid :=
  let row := y (g_cursor g) in
  {| g_size := g_size g;
     g_cursor := {| x := 0;
                    y := if row + 1 <? y (g_size g) then row + 1 else row |};
     g_cells := g_cells g |}.

Definition grid_put (g : grid) (ch : ascii) : grid :=
  let col := x (g_cursor g) in
  let row := y (g_cursor g) in
  if ascii_eqb ch char_NL then grid_newline g
  else if ascii_eqb ch char_BS then
    {| g_size := g_size g;
       g_cursor := {| x := Z.max 0 (col - 1); y := row |};
       g_cells := g_cells g |}
  else if ascii_eqb ch char_CR then
    {| g_size := g_size g;
       g_cursor := {| x := 0; y := row |};
       g_cells := g_cells g |}
  else if ascii_eqb ch char_BEL then g
  else
    let shown := {| g_size := g_size g;
                    g_cursor := g_cursor g;
                    g_cells := fun i j =>
                      if (i =? col) && (j =? row) then ch else g_cells g i j |} in
    if col + 1 <? x (g_size g)
    then {| g_size := g_size shown;
            g_cursor := {| x := col + 1; y := row |};
            g_cells := g_cells shown |}
    else grid_newline shown.

Definition grid_write (s : list ascii) (g : grid) : grid :=
  fold_left grid_put s g.

Definition grid_move (px py : Z) (g : grid) : grid :=
  if inside_b (g_size g) px py
  then {| g_size := g_size g;
          g_cursor := {| x := px; y := py |};
          g_cells := g_cells g |}
  else g.

#[global] Instance grid_console : Console grid := {|
  con_size := g_size;
  con_cursor := g_cursor;
  con_move := grid_move;
  con_write := grid_write;
  con_cell := g_cells
|}.

(** A blank window with the cursor at the given cell. *)
Definition blank_grid (cols rows px py : Z) : grid :=
  {| g_size := {| x := cols; y := rows |};
     g_cursor := {| x := px; y := py |};
     g_cells := fun _ _ => char_SP |}.

(** A keyboard script. *)
Definition script (ks : list Z) : tty := {| pending := ks; delay := -1 |}.

(** Sample builds.  The key codes are stand-ins, the header being absent. *)
Definition win32_build (signed : bool) : build :=
  {| target := Win32; char_signed := signed;
     ARROW_UP := 256; ARROW_DOWN := 257; ARROW_LEFT := 258; ARROW_RIGHT := 259 |}.

Definition posix_build (signed : bool) : build :=
  {| target := Posix; char_signed := signed;
     ARROW_UP := 259; ARROW_DOWN := 258; ARROW_LEFT := 260; ARROW_RIGHT := 261 |}.

(** The screen just before the newline is read, for the keys [a], [b],
    backspace, backspace, [c] typed into a blank 80 by 25 window with the
    cursor at the origin: the calls the line editor makes, in order. *)
Definition sample_before_newline : grid :=
  let s0 := blank_grid 80 25 0 0 in
  let s1 := output_char "a"%char s0 in
  let s2 := output_char "b"%char s1 in
  let s3 := moveCursor 1 0 (output_char char_SP
              (moveCursor 1 0 (output_char char_BS s2))) in
  let s4 := moveCursor 0 0 (output_char char_SP
              (moveCursor 0 0 (output_char char_BS s3))) in
  output_char "c"%char s4.

(** Keys in the printable range. *)
Definition printable (k : Z) : Prop := 32 <= k <= 126.

(** The characters of a key list. *)
Definition chars_of (ks : list Z) : list ascii := map to_char ks.

(** ** Colour activation *)

(** Attribute bits of the Win32 console ([wincon.h]). *)
Definition FOREGROUND_BLUE : Z := 1.
Definition FOREGROUND_GREEN : Z := 2.
Definition FOREGROUND_RED : Z := 4.
Definition FOREGROUND_INTENSITY : Z := 8.
Definition BACKGROUND_BLUE : Z := 16.
Definition BACKGROUND_GREEN : Z := 32.
Definition BACKGROUND_RED : Z := 64.
Definition BACKGROUND_INTENSITY : Z := 128.

(** The colour codes [color] compares with.  On the Win32 build they come
    from [ConsoleController.h], on the POSIX build from curses; either way
    they are build parameters here. *)
Record palette : Type := {
  COLOR_RED : Z;
  COLOR_GREEN : Z;
  COLOR_YELLOW : Z;
  COLOR_BLUE : Z;
  COLOR_MAGENTA : Z;
  COLOR_CYAN : Z;
  COLOR_WHITE : Z
}.

(** The curses macro [COLOR_PAIR] and the attribute [A_BOLD]. *)
Record curses_attr : Type := {
  COLOR_PAIR : Z -> Z;
  A_BOLD : Z
}.

(** [if (cond) colorFlags |= bit;] *)
Definition or_if (cond : bool) (bit colorFlags : Z) : Z :=
  if cond then Z.lor colorFlags bit else colorFlags.

(** The Win32 branch of [color], from [int colorFlags = 0;] to the value
    handed to [SetConsoleTextAttribute]. *)
Definition win32_colorFlags (pal : palette) (curColor : COLOR) : Z :=
  let fg := foreground curColor in
  let bg := background curColor in
  let f0 := 0 in
  let f1 := or_if (foreBold curColor) FOREGROUND_INTENSITY f0 in
  let f2 := or_if (backBold curColor) BACKGROUND_INTENSITY f1 in
  let f3 := or_if ((fg =? COLOR_MAGENTA pal) || (fg =? COLOR_RED pal) ||
                   (fg =? COLOR_YELLOW pal) || (fg =? COLOR_WHITE pal))
                  FOREGROUND_RED f2 in
  let f4 := or_if ((fg =? COLOR_YELLOW pal) || (fg =? COLOR_GREEN pal) ||
                   (fg =? COLOR_CYAN pal) || (fg =? COLOR_WHITE pal))
                  FOREGROUND_GREEN f3 in
  let f5 := or_if ((fg =? COLOR_CYAN pal) || (fg =? COLOR_BLUE pal) ||
                   (fg =? COLOR_MAGENTA pal) || (fg =? COLOR_WHITE pal))
                  FOREGROUND_BLUE f4 in
  let f6 := or_if ((bg =? COLOR_MAGENTA pal) || (bg =? COLOR_RED pal) ||
                   (bg =? COLOR_YELLOW pal) || (bg =? COLOR_WHITE pal))
                  BACKGROUND_RED f5 in
  let f7 := or_if ((bg =? COLOR_YELLOW pal) || (bg =? COLOR_GREEN pal) ||
                   (bg =? COLOR_CYAN pal) || (bg =? COLOR_WHITE pal))
                  BACKGROUND_GREEN f6 in
  or_if ((bg =? COLOR_CYAN pal) || (bg =? COLOR_BLUE pal) ||
         (bg =? COLOR_MAGENTA pal) || (bg =? COLOR_WHITE pal))
        BACKGROUND_BLUE f7.

(** [ConsoleController::color(colorId)]: the attribute word handed to
    [SetConsoleTextAttribute] or [attrset].  A read outside the table is
    undefined. *)
Definition color (p : platform) (pal : palette) (cur : curses_attr)
    (colorId : Z) (g : statics) : outcome Z :=
  if in_table colorId then
    match p with
    | Win32 =>
        match colors g !! Z.to_nat colorId with
        | Some curColor => Ok (win32_colorFlags pal curColor)
        | None => Undefined
        end
    | Posix =>
        match foreBoldFlags g !! Z.to_nat colorId with
        | Some true =>
            Ok (Z.lor (COLOR_PAIR cur (wrap_int (colorId + 1))) (A_BOLD cur))
        | Some false => Ok (COLOR_PAIR cur (wrap_int (colorId + 1)))
        | None => Undefined
        end
    end
  else Undefined.

(** The descriptor with foreground and background exchanged. *)
Definition swap_grounds (c : COLOR) : COLOR :=
  {| foreground := background c; background := foreground c;
     foreBold := backBold c; backBold := foreBold c |}.

(** ** Sleeping *)

(** The [timespec] the POSIX branch of [sleepMs] builds:
    [{ ms / 1000, ms % 1000 * 1000000 }], with the division and remainder of
    C, which truncate towards zero. *)
Definition sleepMs_timespec (ms : Z) : Z * Z :=
  (Z.quot ms 1000, Z.rem ms 1000 * 1000000).

(** ** Waiting for a key, draining keys *)

(** [ConsoleController::waitForKey(int match)]:
    [while (waitForKey() != match);].  Every pass takes a pending key, so
    the fuel handed over below is never used up. *)
Fixpoint waitForKey_match_loop (fuel : nat) (b : build) (match_ : Z) (t : tty)
  : outcome tty :=
  match fuel with
  | O => Blocked
  | S fuel' =>
      '(k, t1) ← waitForKey b t;
      if k =? match_ then Ok t1 else waitForKey_match_loop fuel' b match_ t1
  end.

Definition waitForKey_match (b : build) (match_ : Z) (t : tty) : outcome tty :=
  waitForKey_match_loop (S (length (pending t))) b match_ t.

(** [ConsoleController::clearKey()]: [while (getKey());].  A pass that goes
    round again has taken a pending key. *)
Fixpoint clearKey_loop (fuel : nat) (b : build) (t : tty) : outcome tty :=
  match fuel with
  | O => Blocked
  | S fuel' =>
      '(k, t1) ← getKey b t;
      if k =? 0 then Ok t1 else clearKey_loop fuel' b t1
  end.

Definition clearKey (b : build) (t : tty) : outcome tty :=
  clearKey_loop (S (length (pending t))) b t.

(** [ConsoleController::waitForNewKey()]. *)
Definition waitForNewKey (b : build) (t : tty) : outcome (Z * tty) :=
  t1 ← clearKey b t;
  waitForKey b t1.

(** ** Reading the lifecycle and the line editor *)

(** Constructions minus destructions. *)
Fixpoint net (ops : list lifecycle_op) : Z :=
  match ops with
  | [] => 0
  | Construct :: r => 1 + net r
  | Destroy :: r => net r - 1
  end.

(** The text a run of keystrokes spells: a backspace deletes the character
    before it, if there is one; any other key adds its character. *)
Definition spelled (str : list ascii) (ks : list Z) : list ascii :=
  fold_left (fun s k => if ascii_eqb (to_char k) char_BS
                        then removelast s
                        else s ++ [to_char k]) ks str.

(** A terminal of eight colours and sixty-four pairs. *)
Definition eight_colours : curses_caps := {| COLORS := 8; COLOR_PAIRS := 64 |}.


(** Sample palette and curses attributes: the curses numbering of the
    colours, and the encoding of ncurses. *)
Definition curses_palette : palette :=
  {| COLOR_RED := 1; COLOR_GREEN := 2; COLOR_YELLOW := 3; COLOR_BLUE := 4;
     COLOR_MAGENTA := 5; COLOR_CYAN := 6; COLOR_WHITE := 7 |}.

Definition ncurses_attr : curses_attr :=
  {| COLOR_PAIR := fun n => Z.land (Z.shiftl n 8) 65280;
     A_BOLD := 2097152 |}.

(* ================================================================= *)
(** * Part II: properties *)
(* ================================================================= *)

(** ** Arithmetic helpers *)

Lemma wrap_int_fits z : fits_int z -> wrap_int z = z.
Proof.
  unfold fits_int, wrap_int, INT_MIN, INT_MAX. intros Hz.
  rewrite Z.mod_small by lia. lia.
Qed.

Lemma to_char_low_byte (k : Z) : Z.of_N (N_of_ascii (to_char k)) = k mod 256.
Proof.
  unfold to_char. pose proof (Z.mod_pos_bound k 256 ltac:(lia)) as Hb.
  rewrite N_ascii_embedding by lia. lia.
Qed.

Lemma to_char_mod (k k' : Z) : k' mod 256 = k mod 256 -> to_char k' = to_char k.
Proof. unfold to_char. intros ->. reflexivity. Qed.

Lemma int_of_char_NL (s : bool) : int_of_char s char_NL = 10.
Proof. destruct s; reflexivity. Qed.

Lemma ascii_eqb_eq a b : ascii_eqb a b = true <-> a = b.
Proof. unfold ascii_eqb. apply Ascii.eqb_eq. Qed.

Lemma ascii_eqb_neq a b : ascii_eqb a b = false <-> a <> b.
Proof. unfold ascii_eqb. apply Ascii.eqb_neq. Qed.

Lemma existsb_ascii_false c l :
  c ∉ l -> existsb (ascii_eqb c) l = false.
Proof.
  induction l as [|d l IH]; intros Hn; simpl; [reflexivity|].
  rewrite not_elem_of_cons in Hn. destruct Hn as [Hd Hl].
  rewrite (proj2 (ascii_eqb_neq c d) Hd). simpl. auto.
Qed.

Lemma existsb_ascii_true c l :
  c ∈ l -> existsb (ascii_eqb c) l = true.
Proof.
  induction l as [|d l IH]; intros Hn; simpl.
  - inversion Hn.
  - rewrite elem_of_cons in Hn. destruct Hn as [->|Hl].
    + rewrite (proj2 (ascii_eqb_eq d d) eq_refl). reflexivity.
    + rewrite IH by assumption. apply orb_true_r.
Qed.

(** ** Lifecycle *)

Lemma fill_prefix {A : Type} (v : A) (n : nat) : forall t : list A,
  (n <= length t)%nat ->
  fold_left (fun acc i => <[i := v]> acc) (seq 0 n) t
  = replicate n v ++ drop n t.
Proof.
  induction n as [|n IH]; intros t Hn.
  - simpl. rewrite drop_0. reflexivity.
  - rewrite seq_S, fold_left_app, IH by lia. cbn [fold_left Nat.add].
    assert (Hd : exists a, drop n t = a :: drop (S n) t).
    { destruct (lookup_lt_is_Some_2 t n ltac:(lia)) as [a Ha].
      exists a. apply drop_S. exact Ha. }
    destruct Hd as [a Hd]. rewrite Hd.
    rewrite insert_app_r_alt by (rewrite length_replicate; lia).
    rewrite length_replicate, Nat.sub_diag. cbn [list_insert insert].
    rewrite replicate_S_end, <- app_assoc. reflexivity.
Qed.

Lemma fill_table_full {A : Type} (v : A) (t : list A) :
  length t = 256%nat -> fill_table v t = replicate 256 v.
Proof.
  intros Ht. unfold fill_table. rewrite fill_prefix by lia.
  rewrite drop_ge by lia. apply app_nil_r.
Qed.

Lemma new_at_zero p junk g :
  classInstances g = 0 ->
  snd (ConsoleController_new p junk g)
  = set_classInstances 1 (reset_tables p (host (setup_calls p) g)).
Proof.
  intros Hc. unfold ConsoleController_new. rewrite Hc. cbn [snd Z.eqb].
  replace (classInstances (reset_tables p (host (setup_calls p) g))) with 0
    by (destruct p; symmetry; exact Hc).
  reflexivity.
Qed.

Lemma new_elsewhere p junk g :
  classInstances g <> 0 -> fits_int (classInstances g + 1) ->
  snd (ConsoleController_new p junk g)
  = set_classInstances (classInstances g + 1) g.
Proof.
  intros Hc Hf. unfold ConsoleController_new.
  destruct (Z.eqb_spec (classInstances g) 0) as [E|_]; [contradiction|].
  cbn [snd]. rewrite wrap_int_fits by assumption. reflexivity.
Qed.


Lemma delete_elsewhere p g :
  classInstances g <> 1 -> fits_int (classInstances g - 1) ->
  ConsoleController_delete p g
  = set_classInstances (classInstances g - 1) g.
Proof.
  intros Hc Hf. unfold ConsoleController_delete.
  rewrite wrap_int_fits by assumption. cbn [classInstances set_classInstances].
  destruct (Z.eqb_spec (classInstances g - 1) 0) as [E|_]; [lia|reflexivity].
Qed.












(** ** Colours *)

Lemma init_pair_tables caps pair f b g :
  classInstances (init_pair caps pair f b g) = classInstances g /\
  colors (init_pair caps pair f b g) = colors g /\
  foreBoldFlags (init_pair caps pair f b g) = foreBoldFlags g /\
  calls (init_pair caps pair f b g) = calls g.
Proof. unfold init_pair. cbv zeta. destruct (pair_accepted _ _ _ _); auto. Qed.

Lemma init_pair_twice caps pair f1 b1 f2 b2 g :
  pair_accepted caps (to_short pair) (to_short f2) (to_short b2) = true \/
  pair_accepted caps (to_short pair) (to_short f1) (to_short b1) = false ->
  init_pair caps pair f2 b2 (init_pair caps pair f1 b1 g)
  = init_pair caps pair f2 b2 g.
Proof.
  intros Ha. unfold init_pair. cbv zeta.
  destruct (pair_accepted caps (to_short pair) (to_short f1) (to_short b1)) eqn:E1;
    [|reflexivity].
  destruct Ha as [Ha|Ha]; [|discriminate]. rewrite Ha.
  unfold set_pairs. cbn [classInstances colors foreBoldFlags pairs calls].
  rewrite insert_insert_eq. reflexivity.
Qed.

Lemma init_pair_same caps pair f b g :
  init_pair caps pair f b (init_pair caps pair f b g) = init_pair caps pair f b g.
Proof.
  apply init_pair_twice.
  destruct (pair_accepted caps (to_short pair) (to_short f) (to_short b)); auto.
Qed.

Lemma set_flags_init_pair caps pair f b l g :
  init_pair caps pair f b (set_foreBoldFlags l g)
  = set_foreBoldFlags l (init_pair caps pair f b g).
Proof.
  unfold init_pair. cbv zeta. destruct (pair_accepted _ _ _ _); reflexivity.
Qed.

Lemma set_flags_twice l1 l2 g :
  set_foreBoldFlags l2 (set_foreBoldFlags l1 g) = set_foreBoldFlags l2 g.
Proof. reflexivity. Qed.

(** The POSIX [initColor] on an id of the table, with the pair call first. *)
Lemma posix_initColor_in_table caps colorId fg bg fBold bBold g :
  in_table colorId = true ->
  initColor Posix caps colorId fg bg fBold bBold g
  = Ok (set_foreBoldFlags
          (<[Z.to_nat colorId := fBold]> (foreBoldFlags g))
          (init_pair caps (wrap_int (colorId + 1)) fg
             (if bBold then wrap_int (bg + 8) else bg) g)).
Proof.
  intros Hin. unfold initColor. rewrite Hin.
  destruct bBold;
    rewrite (proj1 (proj2 (proj2 (init_pair_tables _ _ _ _ _)))); reflexivity.
Qed.





(** ** Reading keys *)

Lemma posix_translateKey_no_key (t : tty) :
  pending t = [] -> 0 <= delay t ->
  posix_translateKey t = Ok (0, t).
Proof.
  intros Hp Hd. unfold posix_translateKey, getch. rewrite Hp.
  destruct (Z.ltb_spec (delay t) 0); [lia|]. reflexivity.
Qed.

Lemma posix_translateKey_cr (r : list Z) (d : Z) :
  posix_translateKey {| pending := 13 :: r; delay := d |}
  = Ok (10, {| pending := r; delay := d |}).
Proof. reflexivity. Qed.

(** Any key other than [ERR] and the carriage return. *)
Lemma posix_translateKey_other (ch : Z) (r : list Z) (d : Z) :
  ch <> ERR -> ch <> 13 ->
  posix_translateKey {| pending := ch :: r; delay := d |} = Undefined.
Proof.
  intros He Hc. unfold posix_translateKey, getch.
  cbn [pending mbind outcome_bind].
  destruct (Z.eqb_spec ch ERR) as [E|_]; [contradiction|].
  destruct (Z.eqb_spec ch 13) as [E|_]; [contradiction|]. reflexivity.
Qed.

(** C5.  [posix_translateKey] returns 0 when the read yields [ERR] and the
    newline for a carriage return, but for every other key control leaves the
    function without a [return]: no value is returned. *)
Theorem posix_translateKey_falls_through (ch : Z) (r : list Z) (d : Z) :
  ch <> ERR -> ch <> 13 ->
  posix_translateKey {| pending := ch :: r; delay := d |} = Undefined.
Proof.
  intros He Hc. unfold posix_translateKey, getch.
  cbn [pending mbind outcome_bind].
  destruct (Z.eqb_spec ch ERR) as [E|_]; [contradiction|].
  destruct (Z.eqb_spec ch 13) as [E|_]; [contradiction|]. reflexivity.
Qed.

(** The key [a]. *)
Lemma posix_translateKey_falls_through_witness :
  posix_translateKey {| pending := [97]; delay := -1 |} = Undefined.
Proof.
  apply (posix_translateKey_falls_through 97 [] (-1)); unfold ERR; lia.
Defined.

Lemma getKey_no_key (b : build) (t : tty) :
  pending t = [] ->
  getKey b t = Ok (0, match target b with Win32 => t | Posix => timeout 0 t end).
Proof.
  intros Hp. unfold getKey. destruct (target b).
  - unfold _kbhit. rewrite Hp. reflexivity.
  - apply posix_translateKey_no_key; cbn; [exact Hp | lia].
Qed.

(** C6.  With no key pending [getKey] returns 0 on either build, at once and
    leaving the keyboard as it was.  With a key pending the POSIX build goes
    through [posix_translateKey], so for any key but the carriage return no
    value is returned at all. *)
Theorem getKey_pending_posix (b : build) (t : tty) (k : Z) (r : list Z) :
  (pending t = [] ->
   exists t1, getKey b t = Ok (0, t1) /\ pending t1 = []) /\
  (target b = Posix -> pending t = k :: r -> k <> ERR -> k <> 13 ->
   getKey b t = Undefined).
Proof.
  split.
  - intros Hp. rewrite (getKey_no_key b t Hp). eexists. split; [reflexivity|].
    destruct (target b); exact Hp.
  - intros Hb Hp He Hc. unfold getKey. rewrite Hb.
    destruct t as [pe de]. cbn in Hp. subst pe.
    apply (posix_translateKey_other k r 0 He Hc).
Qed.

Lemma getKey_pending_posix_witness :
  getKey (posix_build true) (script [97]) = Undefined.
Proof.
  apply (proj2 (getKey_pending_posix (posix_build true) (script [97]) 97 []));
    [reflexivity | reflexivity | unfold ERR; lia | lia].
Defined.

(** The Win32 [waitForKey] on the keys it handles. *)
Lemma win32_waitForKey_cr (b : build) (r : list Z) (d : Z) :
  target b = Win32 ->
  waitForKey b {| pending := 13 :: r; delay := d |}
  = Ok (10, {| pending := r; delay := d |}).
Proof.
  intros Hb. unfold waitForKey. rewrite Hb. cbn.
  destruct (char_signed b); reflexivity.
Qed.

Lemma win32_waitForKey_prefixed (b : build) (code : Z) (r : list Z) (d : Z) :
  target b = Win32 ->
  waitForKey b {| pending := 0 :: code :: r; delay := d |}
  = Ok (match win32_arrow b code with Some key => key | None => 0 end,
        {| pending := r; delay := d |}).
Proof.
  intros Hb. unfold waitForKey. rewrite Hb. cbn.
  destruct (char_signed b); cbn; destruct (win32_arrow b code); reflexivity.
Qed.

Lemma win32_waitForKey_plain (b : build) (k : Z) (r : list Z) (d : Z) :
  target b = Win32 -> 1 <= k <= 127 -> k <> 13 ->
  waitForKey b {| pending := k :: r; delay := d |}
  = Ok (k, {| pending := r; delay := d |}).
Proof.
  intros Hb Hk Hc. unfold waitForKey. rewrite Hb.
  assert (Hcases : In k (map Z.of_nat (seq 1 127))).
  { apply in_map_iff. exists (Z.to_nat k). split; [lia|].
    apply in_seq. lia. }
  cbn in Hcases.
  repeat (destruct Hcases as [<-|Hcases];
          [first [ lia | destruct (char_signed b); reflexivity ]|]).
  contradiction.
Qed.

(** C7.  [waitForKey] does not return every pending key as the claim has it.
    On the POSIX build any key other than the carriage return, an arrow key
    included, runs into the missing [return] of [posix_translateKey].  On the
    Win32 build with a signed [char] the comparison [result == 0xE0] is never
    true, so the prefix byte 0xE0 of an arrow key comes back as -32 and the
    scan code stays pending. *)
Theorem waitForKey_misses_keys (b : build) (k : Z) (r : list Z) (d : Z) :
  (target b = Posix -> k <> ERR -> k <> 13 ->
   waitForKey b {| pending := k :: r; delay := d |} = Undefined) /\
  (target b = Win32 -> char_signed b = true ->
   waitForKey b {| pending := 224 :: k :: r; delay := d |}
   = Ok (-32, {| pending := k :: r; delay := d |})).
Proof.
  split.
  - intros Hb He Hc. unfold waitForKey. rewrite Hb.
    apply (posix_translateKey_other k r (-1) He Hc).
  - intros Hb Hs. unfold waitForKey. rewrite Hb, Hs. reflexivity.
Qed.

Lemma waitForKey_misses_keys_witness :
  waitForKey (posix_build true) {| pending := [97]; delay := -1 |} = Undefined /\
  waitForKey (win32_build true) {| pending := [224; 72]; delay := -1 |}
  = Ok (-32, {| pending := [72]; delay := -1 |}).
Proof.
  split.
  - apply (proj1 (waitForKey_misses_keys (posix_build true) 97 [] (-1)));
      [reflexivity | unfold ERR; lia | lia].
  - apply (proj2 (waitForKey_misses_keys (win32_build true) 72 [] (-1)));
      reflexivity.
Defined.

Lemma int_of_char_nonzero (s : bool) (k : Z) :
  1 <= k <= 255 -> int_of_char s (to_char k) <> 0.
Proof.
  intros Hk. unfold int_of_char. rewrite to_char_low_byte.
  rewrite Z.mod_small by lia.
  destruct (s && (128 <=? k)) eqn:E; [|lia].
  apply andb_true_iff in E as [_ E]. apply Z.leb_le in E. lia.
Qed.

(** X22.  On the Win32 build a pending key whose first byte is not 0 never
    comes back from [getKey] as 0, given that no arrow code is 0. *)
Lemma win32_getKey_nonzero (b : build) (k v : Z) (r : list Z) (d : Z) (t1 : tty) :
  target b = Win32 ->
  ARROW_UP b <> 0 -> ARROW_DOWN b <> 0 ->
  ARROW_LEFT b <> 0 -> ARROW_RIGHT b <> 0 ->
  1 <= k <= 255 ->
  getKey b {| pending := k :: r; delay := d |} = Ok (v, t1) ->
  v <> 0.
Proof.
  intros Hb Hu Hd Hl Hr Hk. unfold getKey, waitForKey. rewrite Hb.
  cbn [_kbhit pending _getch mbind outcome_bind].
  pose proof (int_of_char_nonzero (char_signed b) k Hk) as Hnz.
  destruct (ascii_eqb (to_char k) char_CR).
  { rewrite int_of_char_NL. intros E. injection E as <- _. lia. }
  destruct (_ || _).
  - unfold _getch. cbn [pending delay].
    destruct r as [|code r]; cbn [mbind outcome_bind]; [discriminate|].
    destruct (win32_arrow b code) as [key|] eqn:Ea; cbn iota.
    + intros E. injection E as <- _. unfold win32_arrow in Ea.
      repeat (destruct (_ || _) in Ea; [injection Ea as <-; assumption|]).
      discriminate.
    + intros E. injection E as <- _. exact Hnz.
  - intros E. injection E as <- _. exact Hnz.
Qed.

(** ** The line editor *)

Lemma waitForKey_consumes (b : build) (t t1 : tty) (k : Z) :
  waitForKey b t = Ok (k, t1) ->
  (length (pending t1) < length (pending t))%nat.
Proof.
  unfold waitForKey, posix_translateKey, getch, _getch, timeout.
  destruct t as [pe de]. cbn [pending delay].
  destruct (target b).
  - destruct pe as [|r pe]; cbn [mbind outcome_bind]; [discriminate|].
    destruct (ascii_eqb (to_char r) char_CR).
    { intros [= _ <-]. cbn. lia. }
    destruct (_ || _).
    + cbn [pending]. destruct pe as [|code pe]; cbn [mbind outcome_bind];
        [discriminate|].
      destruct (win32_arrow b code); intros [= _ <-]; cbn; lia.
    + intros [= _ <-]. cbn. lia.
  - destruct pe as [|r pe]; cbn [mbind outcome_bind].
    + cbn. discriminate.
    + destruct (r =? ERR); [intros [= _ <-]; cbn; lia|].
      destruct (r =? _); [intros [= _ <-]; cbn; lia|discriminate].
Qed.

Lemma waitForKeys_cons (b : build) (n : nat) (t t2 : tty) (k : Z) (ks : list Z) :
  waitForKeys b (S n) t = Ok (k :: ks, t2) ->
  exists t1, waitForKey b t = Ok (k, t1) /\ waitForKeys b n t1 = Ok (ks, t2).
Proof.
  cbn [waitForKeys]. destruct (waitForKey b t) as [[k' t1]| |] eqn:Hk;
    cbn [mbind outcome_bind]; try discriminate.
  destruct (waitForKeys b n t1) as [[ks' t2']| |] eqn:Hks;
    cbn [mbind outcome_bind]; try discriminate.
  intros E. injection E as E1 E2 E3. subst k' ks' t2'.
  exists t1. split; [reflexivity | exact Hks].
Qed.

Lemma waitForKeys_app (b : build) (ks1 ks2 : list Z) : forall (t t2 : tty),
  waitForKeys b (length (ks1 ++ ks2)) t = Ok (ks1 ++ ks2, t2) ->
  exists t1, waitForKeys b (length ks1) t = Ok (ks1, t1) /\
             waitForKeys b (length ks2) t1 = Ok (ks2, t2).
Proof.
  induction ks1 as [|k ks1 IH]; intros t t2 Hr.
  - exists t. split; [reflexivity | exact Hr].
  - cbn [app length] in Hr. apply waitForKeys_cons in Hr as (ta & Hk & Hr).
    destruct (IH _ _ Hr) as (t1 & H1 & H2). exists t1. split; [|exact H2].
    cbn [length waitForKeys]. rewrite Hk. cbn [mbind outcome_bind].
    rewrite H1. reflexivity.
Qed.

Lemma waitForKeys_consumes (b : build) (ks : list Z) : forall (t t1 : tty),
  waitForKeys b (length ks) t = Ok (ks, t1) ->
  (length (pending t1) + length ks <= length (pending t))%nat.
Proof.
  induction ks as [|k ks IH]; intros t t1 Hr.
  - cbn in Hr. injection Hr as <-. cbn. lia.
  - cbn [length] in Hr. apply waitForKeys_cons in Hr as (ta & Hk & Hr).
    apply waitForKey_consumes in Hk. apply IH in Hr. cbn [length]. lia.
Qed.

Section LineEditorFacts.
Context {T : Type} `{Console T}.

Lemma echoKey_reads (b : build) (w : world T) (k : Z) (t1 : tty) :
  waitForKey b (keys w) = Ok (k, t1) ->
  echoKey b w
  = Ok (k, {| keys := t1; screen := output_char (to_char k) (screen w) |}).
Proof. intros Hk. unfold echoKey. rewrite Hk. reflexivity. Qed.

(** A key that is neither backspace nor a delimiter is echoed and appended. *)
Lemma pass_plain (b : build) (delineators str : list ascii) (w : world T)
    (k : Z) (t1 : tty) :
  waitForKey b (keys w) = Ok (k, t1) ->
  to_char k <> char_BS -> to_char k ∉ delineators ->
  waitForInput_pass b delineators str w
  = Ok (Continue (str ++ [to_char k])
          {| keys := t1; screen := output_char (to_char k) (screen w) |}).
Proof.
  intros Hk Hbs Hd. unfold waitForInput_pass.
  rewrite (echoKey_reads b w k t1 Hk). cbn [mbind outcome_bind].
  rewrite (proj2 (ascii_eqb_neq _ _) Hbs).
  rewrite existsb_ascii_false by exact Hd. reflexivity.
Qed.

(** A delimiter other than backspace is echoed and ends the loop. *)
Lemma pass_delimiter (b : build) (delineators str : list ascii) (w : world T)
    (k : Z) (t1 : tty) :
  waitForKey b (keys w) = Ok (k, t1) ->
  to_char k <> char_BS -> to_char k ∈ delineators ->
  waitForInput_pass b delineators str w
  = Ok (Leave (to_char k) str
          {| keys := t1; screen := output_char (to_char k) (screen w) |}).
Proof.
  intros Hk Hbs Hd. unfold waitForInput_pass.
  rewrite (echoKey_reads b w k t1 Hk). cbn [mbind outcome_bind].
  rewrite (proj2 (ascii_eqb_neq _ _) Hbs).
  rewrite existsb_ascii_true by exact Hd. reflexivity.
Qed.

Lemma loop_plain (b : build) (delineators : list ascii) (ks : list Z) :
  forall (fuel : nat) (str : list ascii) (w : world T) (t1 : tty),
  waitForKeys b (length ks) (keys w) = Ok (ks, t1) ->
  Forall (fun k => to_char k <> char_BS /\ to_char k ∉ delineators) ks ->
  waitForInput_loop (length ks + fuel) b delineators str w
  = waitForInput_loop fuel b delineators (str ++ chars_of ks)
      {| keys := t1; screen := echo_all ks (screen w) |}.
Proof.
  induction ks as [|k ks IH]; intros fuel str w t1 Hr Hks.
  - cbn in Hr. injection Hr as <-. cbn. rewrite app_nil_r.
    destruct w; reflexivity.
  - cbn [length] in Hr. apply waitForKeys_cons in Hr as (ta & Hk & Hr).
    apply Forall_cons in Hks as [[Hbs Hd] Hks].
    cbn [length Nat.add waitForInput_loop].
    rewrite (pass_plain b delineators str w k ta Hk Hbs Hd).
    cbn [mbind outcome_bind].
    rewrite (IH fuel _ {| keys := ta;
                          screen := output_char (to_char k) (screen w) |}
               t1 Hr Hks).
    cbn [keys screen chars_of map echo_all fold_left].
    rewrite <- app_assoc. reflexivity.
Qed.

Lemma skip_rest (b : build) (r : list Z) :
  forall (fuel : nat) (w : world T) (t1 : tty),
  waitForKeys b (length (r ++ [int_of_char (char_signed b) char_NL])) (keys w)
  = Ok (r ++ [int_of_char (char_signed b) char_NL], t1) ->
  Forall (fun k => k <> int_of_char (char_signed b) char_NL) r ->
  skip_to_newline (S (length r) + fuel) b w
  = Ok {| keys := t1;
          screen := echo_all (r ++ [int_of_char (char_signed b) char_NL])
                      (screen w) |}.
Proof.
  induction r as [|k r IH]; intros fuel w t1 Hr Hks.
  - cbn [app length] in Hr. apply waitForKeys_cons in Hr as (ta & Hk & Hr).
    cbn in Hr. injection Hr as <-.
    cbn [length Nat.add skip_to_newline].
    rewrite (echoKey_reads b w _ ta Hk). cbn [mbind outcome_bind].
    rewrite Z.eqb_refl. reflexivity.
  - cbn [app length] in Hr. apply waitForKeys_cons in Hr as (ta & Hk & Hr).
    apply Forall_cons in Hks as [Hne Hks].
    cbn [length Nat.add skip_to_newline].
    rewrite (echoKey_reads b w _ ta Hk). cbn [mbind outcome_bind].
    destruct (Z.eqb_spec k (int_of_char (char_signed b) char_NL)) as [E|_];
      [contradiction|].
    exact (IH fuel {| keys := ta;
                      screen := output_char (to_char k) (screen w) |}
             t1 Hr Hks).
Qed.

Lemma pass_consumes (b : build) (delineators str str1 : list ascii)
    (w w1 : world T) :
  waitForInput_pass b delineators str w = Ok (Continue str1 w1) ->
  (length (pending (keys w1)) < length (pending (keys w)))%nat.
Proof.
  unfold waitForInput_pass, echoKey.
  destruct (waitForKey b (keys w)) as [[k t1]| |] eqn:Hk;
    cbn [mbind outcome_bind]; try discriminate.
  apply waitForKey_consumes in Hk.
  destruct (ascii_eqb (to_char k) char_BS).
  - destruct (backspace _ _ _) as [s1 c1]. intros [= _ <-]. exact Hk.
  - destruct (existsb _ _); [discriminate|]. intros [= _ <-]. exact Hk.
Qed.

(** The fuel of [waitForInput] is never the reason for [Blocked]: any two
    fuels above the number of pending keys give the same result. *)
Lemma loop_fuel_irrelevant (b : build) (delineators : list ascii) :
  forall (f1 f2 : nat) (str : list ascii) (w : world T),
  (length (pending (keys w)) < f1)%nat ->
  (length (pending (keys w)) < f2)%nat ->
  waitForInput_loop f1 b delineators str w
  = waitForInput_loop f2 b delineators str w.
Proof.
  induction f1 as [|f1 IH]; intros f2 str w H1 H2; [lia|].
  destruct f2 as [|f2]; [lia|]. cbn [waitForInput_loop].
  destruct (waitForInput_pass b delineators str w) as [[str1 w1|i str1 w1]| |] eqn:Hp;
    cbn [mbind outcome_bind]; try reflexivity.
  apply pass_consumes in Hp. apply IH; lia.
Qed.

Lemma skip_fuel_irrelevant (b : build) :
  forall (f1 f2 : nat) (w : world T),
  (length (pending (keys w)) < f1)%nat ->
  (length (pending (keys w)) < f2)%nat ->
  skip_to_newline f1 b w = skip_to_newline f2 b w.
Proof.
  induction f1 as [|f1 IH]; intros f2 w H1 H2; [lia|].
  destruct f2 as [|f2]; [lia|]. cbn [skip_to_newline]. unfold echoKey.
  destruct (waitForKey b (keys w)) as [[k t1]| |] eqn:Hk;
    cbn [mbind outcome_bind]; try reflexivity.
  apply waitForKey_consumes in Hk.
  destruct (k =? _); [reflexivity|]. apply IH; cbn [keys]; lia.
Qed.

End LineEditorFacts.

(** C2, as amended.  Let the keyboard deliver keys [ks], none of which is
    (as a [char]) the backspace or a delimiter, then a key [d] whose
    character is a delimiter other than backspace, and then, when that
    character is not the newline, further keys up to and including the first
    newline key.  Then [waitForInput] returns exactly the characters of
    [ks]; every key read, the delimiter and the skipped ones included, has
    been echoed. *)
Theorem waitForInput_returns_buffer {T : Type} `{Console T}
    (b : build) (delineators : list ascii)
    (ks : list Z) (d : Z) (rest : list Z) (t0 t1 : tty) (c : T) :
  waitForKeys b (length (ks ++ d :: rest)) t0 = Ok (ks ++ d :: rest, t1) ->
  Forall (fun k => to_char k <> char_BS /\ to_char k ∉ delineators) ks ->
  to_char d <> char_BS ->
  to_char d ∈ delineators ->
  (to_char d = char_NL -> rest = []) ->
  (to_char d <> char_NL ->
   exists r, rest = r ++ [10] /\ Forall (fun k => k <> 10) r) ->
  waitForInput b delineators {| keys := t0; screen := c |}
  = Ok (chars_of ks,
        {| keys := t1; screen := echo_all (ks ++ d :: rest) c |}).
Proof.
  intros Hr Hks Hbs Hd Hnl Hrest.
  pose proof (waitForKeys_consumes b _ _ _ Hr) as Hlen.
  rewrite length_app, length_cons in Hlen.
  destruct (waitForKeys_app b ks (d :: rest) _ _ Hr) as (ta & Hra & Hrb).
  cbn [length] in Hrb. apply waitForKeys_cons in Hrb as (tb & Hkd & Hrb).
  unfold waitForInput. cbn [keys].
  set (fuel := S (length (pending t0))).
  assert (Hloop : waitForInput_loop fuel b delineators [] {| keys := t0; screen := c |}
                  = Ok (to_char d, chars_of ks,
                        {| keys := tb;
                           screen := output_char (to_char d) (echo_all ks c) |})).
  { replace fuel with (length ks + S (length (pending t0) - length ks))%nat
      by (subst fuel; lia).
    rewrite (loop_plain b delineators ks _ [] {| keys := t0; screen := c |} ta Hra Hks).
    cbn [waitForInput_loop app keys screen].
    rewrite (pass_delimiter b delineators (chars_of ks)
               {| keys := ta; screen := echo_all ks c |} d tb Hkd Hbs Hd).
    reflexivity. }
  rewrite Hloop. cbn [mbind outcome_bind].
  unfold echo_all. rewrite fold_left_app. cbn [fold_left]. fold (echo_all ks c).
  destruct (ascii_eqb (to_char d) char_NL) eqn:Enl.
  - apply ascii_eqb_eq in Enl. rewrite (Hnl Enl) in *.
    cbn in Hrb. injection Hrb as <-. reflexivity.
  - apply ascii_eqb_neq in Enl. destruct (Hrest Enl) as (r & -> & Hr10).
    rewrite length_app in Hlen. cbn [length] in Hlen.
    replace fuel with (S (length r) + (length (pending t0) - length r))%nat
      by (subst fuel; lia).
    rewrite <- (int_of_char_NL (char_signed b)) in Hrb, Hr10 |- *.
    rewrite (skip_rest b r _ {| keys := tb;
                               screen := output_char (to_char d) (echo_all ks c) |}
               t1 Hrb Hr10).
    reflexivity.
Qed.

Ltac solve_plain_keys :=
  repeat constructor; vm_compute;
  first [ discriminate
        | intros Hin; repeat (inversion Hin as [|? ? ? Hin']; clear Hin;
                              rename Hin' into Hin) ].

(** Delimiter set {newline}, keys [abc] and newline, on the Win32 build and a
    blank 80 by 25 window: the result is [abc]. *)
Lemma waitForInput_returns_buffer_witness :
  waitForInput (win32_build true) [char_NL]
    {| keys := script [97; 98; 99; 10]; screen := blank_grid 80 25 0 0 |}
  = Ok (["a"; "b"; "c"]%char,
        {| keys := script [];
           screen := echo_all [97; 98; 99; 10] (blank_grid 80 25 0 0) |}).
Proof.
  apply (waitForInput_returns_buffer (win32_build true) [char_NL]
           [97; 98; 99] 10 [] (script [97; 98; 99; 10]) (script [])
           (blank_grid 80 25 0 0)).
  - reflexivity.
  - solve_plain_keys.
  - vm_compute. discriminate.
  - vm_compute. constructor.
  - reflexivity.
  - vm_compute. intros Hn. contradiction Hn. reflexivity.
Defined.

(** C2 as stated fails where the delimiter is not the newline: on keys
    [abc,] with delimiter set {comma} the loop ends at the comma and the
    function then waits for a newline instead of returning.  It also fails
    where the delimiter is the backspace, which is taken as an edit. *)
Lemma waitForInput_not_at_delimiter :
  (Forall printable [97; 98; 99] /\
   Forall (fun k => to_char k <> char_BS /\ to_char k ∉ [","%char]) [97; 98; 99] /\
   to_char 44 ∈ [","%char] /\
   waitForKeys (win32_build true) 4 (script [97; 98; 99; 44])
   = Ok ([97; 98; 99; 44], script []) /\
   waitForInput (win32_build true) [","%char]
     {| keys := script [97; 98; 99; 44]; screen := blank_grid 80 25 0 0 |}
   = Blocked)
  /\
  (Forall (fun k => to_char k <> char_BS /\ to_char k ∉ [char_BS]) [97; 98; 99] /\
   to_char 8 ∈ [char_BS] /\
   waitForInput (win32_build true) [char_BS]
     {| keys := script [97; 98; 99; 8]; screen := blank_grid 80 25 0 0 |}
   = Blocked).
Proof.
  split.
  - split; [repeat constructor; unfold printable; lia|].
    split; [solve_plain_keys|].
    split; [vm_compute; constructor|].
    split; reflexivity.
  - split; [solve_plain_keys|].
    split; [vm_compute; constructor|]. reflexivity.
Qed.

(** ** The concrete screen obeys the laws *)

Lemma grid_put_size (g : grid) (ch : ascii) : g_size (grid_put g ch) = g_size g.
Proof.
  unfold grid_put, grid_newline.
  repeat match goal with |- context [if ?c then _ else _] => destruct c end;
    reflexivity.
Qed.

Lemma grid_write_size (s : list ascii) : forall g : grid,
  g_size (grid_write s g) = g_size g.
Proof.
  unfold grid_write. induction s as [|ch s IH]; intros g; [reflexivity|].
  cbn [fold_left]. rewrite IH. apply grid_put_size.
Qed.

#[global] Instance grid_laws : ConsoleLaws grid.
Proof.
  split.
  - intros c px py [[Hx1 Hx2] [Hy1 Hy2]]. cbn [con_cursor con_move grid_console con_size] in *.
    unfold grid_move, inside_b.
    destruct (Z.leb_spec 0 px); [|lia]. destruct (Z.ltb_spec px (x (g_size c))); [|lia].
    destruct (Z.leb_spec 0 py); [|lia]. destruct (Z.ltb_spec py (y (g_size c))); [|lia].
    reflexivity.
  - intros c px py. cbn. unfold grid_move. destruct (inside_b _ _ _); reflexivity.
  - intros c s. cbn. apply grid_write_size.
  - intros c px py i j. cbn. unfold grid_move. destruct (inside_b _ _ _); reflexivity.
  - intros c. cbn [con_cell con_write con_cursor grid_console grid_write fold_left].
    unfold grid_put. cbn [ascii_eqb Ascii.eqb char_SP char_NL char_BS char_CR char_BEL Bool.eqb].
    cbn [g_cells grid_newline].
    destruct (_ <? _); cbn [g_cells grid_newline]; rewrite !Z.eqb_refl; reflexivity.
Qed.

(** ** Backspace *)

Section BackspaceFacts.
Context {T : Type} {HC : Console T} {HL : ConsoleLaws T}.

(** The tail of the backspace branch: once the cursor has been sent to a cell
    of the window, that cell is blanked and the cursor is left on it. *)
Lemma erase_at (c : T) (tx ty : Z) :
  inside (getWindowSize c) tx ty ->
  let c1 := moveCursor tx ty c in
  let pos1 := getCurPos c1 in
  let c3 := moveCursor (x pos1) (y pos1) (output_char char_SP c1) in
  getCurPos c3 = {| x := tx; y := ty |} /\ con_cell c3 tx ty = char_SP.
Proof.
  intros Hin c1 pos1 c3.
  assert (Hp : pos1 = {| x := tx; y := ty |}).
  { subst pos1 c1. unfold getCurPos, moveCursor. apply con_move_cursor. exact Hin. }
  subst c3. rewrite Hp. cbn [x y]. unfold getCurPos, moveCursor, output_char, output.
  split.
  - apply con_move_cursor. rewrite con_write_size. subst c1. unfold moveCursor.
    rewrite con_move_size. exact Hin.
  - rewrite con_move_cell.
    pose proof (con_write_blank c1) as Hb.
    unfold pos1, getCurPos in Hp. rewrite Hp in Hb. exact Hb.
Qed.

End BackspaceFacts.

(** C3, as amended.  A backspace keystroke read while the buffer is not empty
    removes the buffer's last character, sends the cursor one cell left of
    where it was before the keystroke (to the last column of the row above
    when it was in column 0), blanks that cell and leaves the cursor on it,
    provided that cell lies in the window.  With the keys [a], [b],
    backspace, backspace, [c], newline the result is [c]; the [c] is shown in
    the cell where the input began and the cursor stands right after it when
    the newline is read; the newline is echoed too, which takes the cursor to
    the start of the next row. *)
Theorem backspace_erases_last :
  (forall (T : Type) (HC : Console T) (HL : ConsoleLaws T)
          (b : build) (delineators str : list ascii) (w : world T)
          (k : Z) (t1 : tty) (tx ty : Z),
     waitForKey b (keys w) = Ok (k, t1) ->
     to_char k = char_BS ->
     str <> [] ->
     fits_int (x (getWindowSize (screen w))) ->
     fits_int (y (getWindowSize (screen w))) ->
     tx = (if x (getCurPos (screen w)) =? 0
           then x (getWindowSize (screen w)) - 1
           else x (getCurPos (screen w)) - 1) ->
     ty = (if x (getCurPos (screen w)) =? 0
           then y (getCurPos (screen w)) - 1
           else y (getCurPos (screen w))) ->
     inside (getWindowSize (screen w)) tx ty ->
     exists c' : T,
       waitForInput_pass b delineators str w
       = Ok (Continue (removelast str) {| keys := t1; screen := c' |}) /\
       getCurPos c' = {| x := tx; y := ty |} /\
       con_cell c' tx ty = char_SP)
  /\
  (waitForInput (win32_build true) [char_NL]
     {| keys := script [97; 98; 8; 8; 99; 10]; screen := blank_grid 80 25 0 0 |}
   = Ok (["c"%char],
         {| keys := script [];
            screen := output_char char_NL sample_before_newline |}) /\
   con_cell sample_before_newline 0 0 = "c"%char /\
   getCurPos sample_before_newline = {| x := 1; y := 0 |} /\
   getCurPos (output_char char_NL sample_before_newline) = {| x := 0; y := 1 |}).
Proof.
  split.
  - intros T HC HL b delineators str w k t1 tx ty Hk Hbs Hstr Hfx Hfy Htx Hty Hin.
    set (ce := output_char (to_char k) (screen w)).
    assert (Hsz : getWindowSize ce = getWindowSize (screen w)).
    { subst ce. unfold getWindowSize, output_char, output. apply con_write_size. }
    assert (Hb : backspace (getCurPos (screen w)) str ce
                 = (removelast str,
                    let c1 := moveCursor tx ty ce in
                    let pos1 := getCurPos c1 in
                    moveCursor (x pos1) (y pos1) (output_char char_SP c1))).
    { unfold backspace. destruct str as [|a str]; [contradiction|].
      rewrite Hsz. destruct Hin as [[Hx1 Hx2] [Hy1 Hy2]].
      unfold fits_int, INT_MIN, INT_MAX in Hfx, Hfy.
      destruct (Z.eqb_spec (x (getCurPos (screen w))) 0) as [E|E]; subst tx ty.
      - rewrite !wrap_int_fits by (unfold fits_int, INT_MIN, INT_MAX; lia).
        reflexivity.
      - rewrite !wrap_int_fits by (unfold fits_int, INT_MIN, INT_MAX; lia).
        reflexivity. }
    unfold waitForInput_pass. rewrite (echoKey_reads b w k t1 Hk).
    cbn [mbind outcome_bind]. cbn [screen keys]. fold ce. rewrite Hbs.
    change (ascii_eqb char_BS char_BS) with true. cbn iota.
    rewrite Hb. cbn zeta.
    eexists. split; [reflexivity|].
    apply (erase_at ce tx ty). rewrite Hsz. exact Hin.
  - split; [reflexivity|]. split; [reflexivity|]. split; reflexivity.
Qed.

(** The second backspace of the sample, on the concrete screen. *)
Lemma backspace_erases_last_witness :
  exists c' : grid,
    waitForInput_pass (win32_build true) [char_NL] ["a"%char]
      {| keys := script [8; 99; 10];
         screen := moveCursor 1 0 (output_char "a"%char (blank_grid 80 25 0 0)) |}
    = Ok (Continue [] {| keys := script [99; 10]; screen := c' |}) /\
    getCurPos c' = {| x := 0; y := 0 |} /\
    con_cell c' 0 0 = char_SP.
Proof.
  apply (proj1 backspace_erases_last grid _ _ (win32_build true) [char_NL]
           ["a"%char]
           {| keys := script [8; 99; 10];
              screen := moveCursor 1 0
                          (output_char "a"%char (blank_grid 80 25 0 0)) |}
           8 (script [99; 10]) 0 0).
  - reflexivity.
  - reflexivity.
  - discriminate.
  - vm_compute. split; discriminate.
  - vm_compute. split; discriminate.
  - reflexivity.
  - reflexivity.
  - vm_compute. repeat split; discriminate.
Defined.

(** C3 as stated fails in its last part: after the sample input the cursor is
    not right after the echoed [c] (column 1 of row 0) but where the echo of
    the newline left it.  It also fails where there is no row above: with
    the bell in the buffer and the cursor still at the origin, a backspace
    sends the cursor to row -1, which the screen refuses, and the cursor
    stays at the origin. *)
Lemma cursor_after_sample_input :
  match waitForInput (win32_build true) [char_NL]
          {| keys := script [97; 98; 8; 8; 99; 10];
             screen := blank_grid 80 25 0 0 |}
  with
  | Ok (str, w') =>
      str = ["c"%char] /\
      con_cell (screen w') 0 0 = "c"%char /\
      getCurPos (screen w') = {| x := 0; y := 1 |} /\
      getCurPos (screen w') <> {| x := 1; y := 0 |}
  | _ => False
  end
  /\
  match waitForInput_pass (win32_build true) [char_NL] []
          {| keys := script [7; 8]; screen := blank_grid 80 25 0 0 |}
  with
  | Ok (Continue str1 w1) =>
      str1 = [char_BEL] /\
      getCurPos (screen w1) = {| x := 0; y := 0 |} /\
      match waitForInput_pass (win32_build true) [char_NL] str1 w1 with
      | Ok (Continue str2 w2) =>
          str2 = [] /\
          getCurPos (screen w2) = {| x := 0; y := 0 |} /\
          getCurPos (screen w2) <> {| x := 79; y := -1 |}
      | _ => False
      end
  | _ => False
  end.
Proof. vm_compute. repeat split; discriminate. Qed.

(** C4.  A backspace keystroke read while the buffer is empty leaves the
    buffer empty, and the cursor ends where it stood before the keystroke was
    read, whatever the echo of the backspace did to it. *)
Theorem backspace_on_empty_keeps_cursor
    {T : Type} {HC : Console T} {HL : ConsoleLaws T}
    (b : build) (delineators : list ascii) (w : world T) (k : Z) (t1 : tty) :
  waitForKey b (keys w) = Ok (k, t1) ->
  to_char k = char_BS ->
  inside (getWindowSize (screen w))
         (x (getCurPos (screen w))) (y (getCurPos (screen w))) ->
  exists c' : T,
    waitForInput_pass b delineators [] w
    = Ok (Continue [] {| keys := t1; screen := c' |}) /\
    getCurPos c' = getCurPos (screen w).
Proof.
  intros Hk Hbs Hin.
  set (ce := output_char (to_char k) (screen w)).
  assert (Hsz : getWindowSize ce = getWindowSize (screen w)).
  { subst ce. unfold getWindowSize, output_char, output. apply con_write_size. }
  unfold waitForInput_pass. rewrite (echoKey_reads b w k t1 Hk).
  cbn [mbind outcome_bind]. cbn [screen keys]. fold ce. rewrite Hbs.
  change (ascii_eqb char_BS char_BS) with true. cbn iota.
  unfold backspace.
  eexists. split; [reflexivity|].
  rewrite <- Hsz in Hin.
  destruct (erase_at ce _ _ Hin) as [Hcur _]. cbn zeta in Hcur.
  rewrite Hcur. destruct (getCurPos (screen w)); reflexivity.
Qed.

(** A backspace as the first key, cursor in the middle of the window. *)
Lemma backspace_on_empty_keeps_cursor_witness :
  exists c' : grid,
    waitForInput_pass (win32_build true) [char_NL] []
      {| keys := script [8]; screen := blank_grid 80 25 40 12 |}
    = Ok (Continue [] {| keys := script []; screen := c' |}) /\
    getCurPos c' = {| x := 40; y := 12 |}.
Proof.
  assert (Hin : inside (getWindowSize (blank_grid 80 25 40 12)) 40 12)
    by (vm_compute; repeat split; discriminate).
  exact (backspace_on_empty_keeps_cursor (win32_build true) [char_NL]
           {| keys := script [8]; screen := blank_grid 80 25 40 12 |}
           8 (script []) eq_refl eq_refl Hin).
Defined.

(** ** Special keys in the line editor *)

(** C10.  Whatever key the blocking read returns, an arrow key code
    included, the line editor goes on with its low byte only: that character
    is echoed, and when it is neither the backspace nor a delimiter it is
    appended to the buffer; two keys with the same low byte are treated
    alike in every respect. *)
Theorem special_keys_truncated {T : Type} {HC : Console T}
    (b : build) (delineators str : list ascii) (w : world T)
    (k : Z) (t1 : tty) :
  waitForKey b (keys w) = Ok (k, t1) ->
  Z.of_N (N_of_ascii (to_char k)) = k mod 256 /\
  echoKey b w
  = Ok (k, {| keys := t1; screen := output_char (to_char k) (screen w) |}) /\
  (to_char k <> char_BS -> to_char k ∉ delineators ->
   waitForInput_pass b delineators str w
   = Ok (Continue (str ++ [to_char k])
           {| keys := t1; screen := output_char (to_char k) (screen w) |})) /\
  (forall (w' : world T) (k' : Z),
     waitForKey b (keys w') = Ok (k', t1) ->
     screen w' = screen w ->
     k' mod 256 = k mod 256 ->
     waitForInput_pass b delineators str w'
     = waitForInput_pass b delineators str w).
Proof.
  intros Hk. split; [apply to_char_low_byte|].
  split; [apply echoKey_reads; exact Hk|].
  split; [intros Hbs Hd; apply pass_plain; assumption|].
  intros w' k' Hk' Hs Hm. unfold waitForInput_pass.
  rewrite (echoKey_reads b w k t1 Hk), (echoKey_reads b w' k' t1 Hk').
  cbn [mbind outcome_bind]. rewrite Hs, (to_char_mod k k' Hm). reflexivity.
Qed.

(** The up arrow on the sample Win32 build (code 256, low byte 0) is stored
    in the buffer as the character with code 0. *)
Lemma special_keys_truncated_witness :
  waitForInput_pass (win32_build true) [char_NL] []
    {| keys := script [0; 72]; screen := blank_grid 80 25 0 0 |}
  = Ok (Continue ["000"%char]
          {| keys := script [];
             screen := output_char "000"%char (blank_grid 80 25 0 0) |}).
Proof.
  destruct (special_keys_truncated (win32_build true) [char_NL] []
              {| keys := script [0; 72]; screen := blank_grid 80 25 0 0 |}
              256 (script []) eq_refl) as (_ & _ & W & _).
  apply W.
  - vm_compute. discriminate.
  - vm_compute. intros Hin.
    repeat (inversion Hin as [|? ? ? Hin']; clear Hin; rename Hin' into Hin).
Defined.

(** ** Throttling *)

Section ThrottleFacts.
Variable ticks : nat -> Z.
Variable CLOCKS_PER_SEC : Z.
(** The clock does not run backwards. *)
Hypothesis ticks_mono : forall i j : nat, (i <= j)%nat -> ticks i <= ticks j.
(** Adding no time to a clock reading gives the reading back: it survives
    the way into [double] and out again. *)
Hypothesis tick_add_0 :
  forall n : nat, tick_add CLOCKS_PER_SEC (ticks n) 0 = ticks n.

Lemma throttle_first (ms : Z) (h : handle) (e : timing) :
  throttleInitialized h = false ->
  throttle ticks CLOCKS_PER_SEC ms h e
  = ({| throttleInitialized := true; throttleLast := ticks (clock_calls e) |},
     {| clock_calls := S (clock_calls e); slept := slept e |}).
Proof. intros Hi. unfold throttle. rewrite Hi. reflexivity. Qed.

Lemma throttle_later (ms : Z) (h : handle) (e : timing) :
  throttleInitialized h = true ->
  throttle ticks CLOCKS_PER_SEC ms h e
  = ({| throttleInitialized := true;
        throttleLast := tick_add CLOCKS_PER_SEC (throttleLast h) ms |},
     if tick_add CLOCKS_PER_SEC (throttleLast h) ms >? ticks (clock_calls e)
     then {| clock_calls := S (S (clock_calls e));
             slept := slept e ++ [tick_add CLOCKS_PER_SEC (throttleLast h) ms
                                  - ticks (S (clock_calls e))] |}
     else {| clock_calls := S (clock_calls e); slept := slept e |}).
Proof.
  intros Hi. unfold throttle. rewrite Hi.
  cbn [throttleLast clock sleepMs clock_calls slept].
  destruct (_ >? _); reflexivity.
Qed.



End ThrottleFacts.


(** The sum is formed in [double]: 1001 ms add 1000999 ticks to a target of
    0 and 1001000 ticks to a target of 1000000. *)
Lemma tick_add_rounds :
  tick_add 1000000 0 1001 = 1000999 /\
  tick_add 1000000 1000000 1001 = 2001000.
Proof. vm_compute. split; reflexivity. Qed.


(* ================================================================= *)
(** * Part III: further properties of the code *)
(* ================================================================= *)

(** ** Registering and activating colours *)

Lemma in_table_range (i : Z) : in_table i = true <-> 0 <= i < 256.
Proof.
  unfold in_table, TABLE_SIZE. rewrite andb_true_iff, Z.leb_le, Z.ltb_lt.
  reflexivity.
Qed.

Lemma initColor_ok_in_table p caps colorId fg bg fBold bBold g g' :
  initColor p caps colorId fg bg fBold bBold g = Ok g' ->
  in_table colorId = true.
Proof.
  unfold initColor. destruct p, (in_table colorId); try discriminate; reflexivity.
Qed.



Lemma init_pair_commutes caps pair1 f1 b1 pair2 f2 b2 g :
  to_short pair1 <> to_short pair2 ->
  init_pair caps pair2 f2 b2 (init_pair caps pair1 f1 b1 g)
  = init_pair caps pair1 f1 b1 (init_pair caps pair2 f2 b2 g).
Proof.
  intros Hne. unfold init_pair. cbv zeta.
  destruct (pair_accepted caps (to_short pair1) _ _),
           (pair_accepted caps (to_short pair2) _ _); try reflexivity.
  unfold set_pairs. cbn [classInstances colors foreBoldFlags pairs calls].
  f_equal. apply insert_insert_ne. congruence.
Qed.

(** X2.  Registrations of two different ids commute. *)
Theorem initColor_commutes (p : platform) (caps : curses_caps) (id1 id2 : Z)
    (fg1 bg1 : Z) (fBold1 bBold1 : bool) (fg2 bg2 : Z) (fBold2 bBold2 : bool)
    (g : statics) :
  id1 <> id2 ->
  (initColor p caps id1 fg1 bg1 fBold1 bBold1 g
     ≫= initColor p caps id2 fg2 bg2 fBold2 bBold2)
  = (initColor p caps id2 fg2 bg2 fBold2 bBold2 g
     ≫= initColor p caps id1 fg1 bg1 fBold1 bBold1).
Proof.
  intros Hne.
  destruct (in_table id1) eqn:H1, (in_table id2) eqn:H2; destruct p.
  - unfold initColor. rewrite H1, H2. cbn [mbind outcome_bind].
    rewrite ?H1, ?H2. apply in_table_range in H1, H2. f_equal. unfold set_colors.
    cbn [classInstances calls colors foreBoldFlags pairs]. f_equal.
    apply list_insert_insert_ne. lia.
  - rewrite (posix_initColor_in_table caps id1), (posix_initColor_in_table caps id2)
      by assumption.
    cbn [mbind outcome_bind].
    rewrite (posix_initColor_in_table caps id1), (posix_initColor_in_table caps id2)
      by assumption.
    apply in_table_range in H1, H2. f_equal.
    rewrite !set_flags_init_pair. cbn [foreBoldFlags set_foreBoldFlags].
    rewrite !set_flags_twice.
    rewrite (list_insert_insert_ne (foreBoldFlags g) (Z.to_nat id2) (Z.to_nat id1))
      by lia.
    f_equal. apply init_pair_commutes.
    rewrite !wrap_int_fits by (unfold fits_int, INT_MIN, INT_MAX; lia).
    unfold to_short. rewrite !Z.mod_small by lia. lia.
  - unfold initColor. rewrite H1, H2. cbn [mbind outcome_bind]. rewrite ?H1.
    reflexivity.
  - unfold initColor. rewrite H1, H2. cbn [mbind outcome_bind]. rewrite ?H1.
    reflexivity.
  - unfold initColor. rewrite H1, H2. cbn [mbind outcome_bind]. rewrite ?H2.
    reflexivity.
  - unfold initColor. rewrite H1, H2. cbn [mbind outcome_bind]. rewrite ?H2.
    reflexivity.
  - unfold initColor. rewrite H1, H2. reflexivity.
  - unfold initColor. rewrite H1, H2. reflexivity.
Qed.

Lemma initColor_commutes_witness :
  (initColor Posix eight_colours 2 1 0 true true statics_init
     ≫= initColor Posix eight_colours 9 3 4 false false)
  = (initColor Posix eight_colours 9 3 4 false false statics_init
     ≫= initColor Posix eight_colours 2 1 0 true true).
Proof.
  apply (initColor_commutes Posix eight_colours 2 9 1 0 true true
           3 4 false false statics_init).
  lia.
Defined.

(** X3.  Activating an id right after registering it selects what was
    registered: on Win32 the attribute word computed from the new
    descriptor, on POSIX colour pair [colorId + 1], with [A_BOLD] exactly
    when the foreground was registered bold.  What activating any other id
    selects is not changed by the registration. *)
Theorem color_after_initColor (p : platform) (caps : curses_caps)
    (pal : palette) (cur : curses_attr) (colorId fg bg : Z)
    (fBold bBold : bool) (g g' : statics) :
  initColor p caps colorId fg bg fBold bBold g = Ok g' ->
  tables_sized g ->
  color p pal cur colorId g'
  = Ok (match p with
        | Win32 =>
            win32_colorFlags pal
              {| foreground := fg; background := bg;
                 foreBold := fBold; backBold := bBold |}
        | Posix =>
            if fBold
            then Z.lor (COLOR_PAIR cur (colorId + 1)) (A_BOLD cur)
            else COLOR_PAIR cur (colorId + 1)
        end) /\
  (forall other : Z, other <> colorId ->
     color p pal cur other g' = color p pal cur other g).
Proof.
  intros Hi [Hc Hf].
  pose proof (initColor_ok_in_table _ _ _ _ _ _ _ _ _ Hi) as Hin.
  pose proof (proj1 (in_table_range colorId) Hin) as Hr.
  destruct p.
  - unfold initColor in Hi. rewrite Hin in Hi. injection Hi as <-. split.
    + unfold color. rewrite Hin. cbn [colors set_colors].
      rewrite list_lookup_insert_eq by lia. reflexivity.
    + intros other Hne. unfold color.
      destruct (in_table other) eqn:Ho; [|reflexivity].
      apply in_table_range in Ho. cbn [colors set_colors].
      rewrite list_lookup_insert_ne by lia. reflexivity.
  - rewrite (posix_initColor_in_table caps colorId) in Hi by exact Hin.
    injection Hi as <-. split.
    + unfold color. rewrite Hin. cbn [foreBoldFlags set_foreBoldFlags].
      rewrite list_lookup_insert_eq by lia.
      rewrite (wrap_int_fits (colorId + 1))
        by (unfold fits_int, INT_MIN, INT_MAX; lia).
      destruct fBold; reflexivity.
    + intros other Hne. unfold color.
      destruct (in_table other) eqn:Ho; [|reflexivity].
      apply in_table_range in Ho. cbn [foreBoldFlags set_foreBoldFlags].
      rewrite list_lookup_insert_ne by lia. reflexivity.
Qed.

Lemma color_after_initColor_witness :
  exists g' : statics,
    initColor Posix eight_colours 3 1 4 true false statics_init = Ok g' /\
    color Posix curses_palette ncurses_attr 3 g' = Ok (1024 + 2097152).
Proof.
  eexists. split; [reflexivity|].
  destruct (color_after_initColor Posix eight_colours curses_palette
              ncurses_attr 3 1 4 true false statics_init _ eq_refl) as [W _].
  - split; reflexivity.
  - exact W.
Defined.

(** X4.  The Win32 attribute word keeps the foreground in its low four bits
    and the background in the next four, computed alike: exchanging
    foreground and background in the descriptor exchanges the two halves of
    the word.  The word always fits in eight bits. *)
Theorem win32_colorFlags_halves (pal : palette) (c : COLOR) :
  0 <= win32_colorFlags pal c < 256 /\
  win32_colorFlags pal (swap_grounds c)
  = win32_colorFlags pal c / 16 + 16 * (win32_colorFlags pal c mod 16).
Proof.
  destruct c as [fg bg fb bb]. unfold win32_colorFlags, swap_grounds.
  cbv zeta. cbn [foreground background foreBold backBold].
  repeat match goal with
         | |- context [or_if (?a || ?b) _ _] => destruct (a || b)
         end;
    destruct fb, bb; vm_compute; repeat split; discriminate.
Qed.

Ltac distinct_codes H :=
  repeat match type of H with
         | NoDup (_ :: _) =>
             let Hx := fresh "Hx" in
             apply NoDup_cons in H as [Hx H];
             rewrite ?not_elem_of_cons in Hx
         end.

Ltac decide_codes :=
  repeat match goal with
         | |- context [?a =? ?b] =>
             destruct (Z.eqb_spec a b); try (exfalso; intuition congruence)
         end.

(** X5.  Provided the seven colour codes are pairwise distinct, the low three
    bits of the Win32 attribute word are the red, green and blue mix of the
    foreground colour: red 4, green 2, blue 1, yellow red and green, cyan
    green and blue, magenta red and blue, white all three - and none for any
    other foreground code (black). *)
Theorem win32_colorFlags_mix (pal : palette) (c : COLOR) :
  NoDup [COLOR_RED pal; COLOR_GREEN pal; COLOR_YELLOW pal; COLOR_BLUE pal;
         COLOR_MAGENTA pal; COLOR_CYAN pal; COLOR_WHITE pal] ->
  (foreground c = COLOR_RED pal -> Z.land (win32_colorFlags pal c) 7 = 4) /\
  (foreground c = COLOR_GREEN pal -> Z.land (win32_colorFlags pal c) 7 = 2) /\
  (foreground c = COLOR_BLUE pal -> Z.land (win32_colorFlags pal c) 7 = 1) /\
  (foreground c = COLOR_YELLOW pal -> Z.land (win32_colorFlags pal c) 7 = 6) /\
  (foreground c = COLOR_CYAN pal -> Z.land (win32_colorFlags pal c) 7 = 3) /\
  (foreground c = COLOR_MAGENTA pal -> Z.land (win32_colorFlags pal c) 7 = 5) /\
  (foreground c = COLOR_WHITE pal -> Z.land (win32_colorFlags pal c) 7 = 7) /\
  (foreground c ∉ [COLOR_RED pal; COLOR_GREEN pal; COLOR_YELLOW pal;
                   COLOR_BLUE pal; COLOR_MAGENTA pal; COLOR_CYAN pal;
                   COLOR_WHITE pal] ->
   Z.land (win32_colorFlags pal c) 7 = 0).
Proof.
  intros Hd. distinct_codes Hd.
  destruct c as [fg bg fb bb]. unfold win32_colorFlags.
  cbv zeta. cbn [foreground background foreBold backBold].
  repeat match goal with
         | |- context [or_if ((bg =? ?a) || ?b || ?c || ?d) _ _] =>
             destruct ((bg =? a) || b || c || d)
         end.
  all: repeat split; intros Hfg; rewrite ?not_elem_of_cons in Hfg;
    try subst fg; decide_codes; destruct fb, bb; reflexivity.
Qed.

Lemma win32_colorFlags_mix_witness :
  Z.land (win32_colorFlags curses_palette
            {| foreground := 3; background := 4;
               foreBold := true; backBold := false |}) 7 = 6.
Proof.
  destruct (win32_colorFlags_mix curses_palette
              {| foreground := 3; background := 4;
                 foreBold := true; backBold := false |})
    as (_ & _ & _ & W & _).
  - apply (bool_decide_unpack _). vm_compute. exact I.
  - apply W. reflexivity.
Defined.

(** ** Sleeping *)

(** X6.  The [timespec] of the POSIX [sleepMs] stands for exactly [ms]
    milliseconds, and the product [ms % 1000 * 1000000] never leaves the
    range of a 32-bit [long].  For [ms >= 0] it is a valid [timespec]
    (seconds and nanoseconds not negative, nanoseconds below 10^9); for
    [ms < 0] neither field is positive and one is negative, which
    [nanosleep] rejects. *)
Theorem sleepMs_timespec_exact (ms : Z) :
  fits_int (snd (sleepMs_timespec ms)) /\
  fst (sleepMs_timespec ms) * 1000000000 + snd (sleepMs_timespec ms)
  = ms * 1000000 /\
  (0 <= ms ->
   0 <= fst (sleepMs_timespec ms) /\
   0 <= snd (sleepMs_timespec ms) < 1000000000) /\
  (ms < 0 ->
   fst (sleepMs_timespec ms) <= 0 /\ snd (sleepMs_timespec ms) <= 0 /\
   (fst (sleepMs_timespec ms) < 0 \/ snd (sleepMs_timespec ms) < 0)).
Proof.
  unfold sleepMs_timespec, fits_int, INT_MIN, INT_MAX. cbn [fst snd].
  repeat split; intros; Z.to_euclidean_division_equations; lia.
Qed.

(** ** More on the lifecycle *)

Lemma lifecycle_step_count (p : platform) (g : statics) (op : lifecycle_op) :
  classInstances (lifecycle_step p g op)
  = wrap_int (classInstances g + match op with Construct => 1 | Destroy => -1 end).
Proof.
  destruct op; cbn [lifecycle_step ConsoleController_new snd].
  - destruct (classInstances g =? 0) eqn:E; [|reflexivity].
    cbn [classInstances set_classInstances]. destruct p; reflexivity.
  - unfold ConsoleController_delete. cbn [classInstances set_classInstances].
    destruct (_ =? 0); reflexivity.
Qed.

(** X7.  Whatever the order of constructions and destructions, balanced or
    not, the count is the count at the start plus constructions minus
    destructions, as long as that stays within [int]. *)
Theorem lifecycle_count_is_net (p : platform) (ops : list lifecycle_op) :
  forall g : statics,
  Z.abs (classInstances g) + Z.of_nat (length ops) <= INT_MAX ->
  classInstances (lifecycle_run p ops g) = classInstances g + net ops.
Proof.
  unfold lifecycle_run, INT_MAX.
  induction ops as [|op ops IH]; intros g Hb; [cbn; lia|].
  cbn [fold_left length] in *.
  assert (Hs : classInstances (lifecycle_step p g op)
               = classInstances g + match op with Construct => 1 | Destroy => -1 end).
  { rewrite lifecycle_step_count. apply wrap_int_fits.
    unfold fits_int, INT_MIN, INT_MAX. destruct op; lia. }
  rewrite IH by (rewrite Hs; destruct op; lia).
  rewrite Hs. destruct op; cbn [net]; lia.
Qed.

Lemma lifecycle_count_is_net_witness :
  classInstances (lifecycle_run Win32 [Destroy; Destroy; Construct] statics_init)
  = -1.
Proof.
  apply (lifecycle_count_is_net Win32 [Destroy; Destroy; Construct] statics_init).
  vm_compute. discriminate.
Defined.

(** X9.  One destruction too many switches the lifecycle off.  If the
    destructor runs while no handle is alive, the count drops to -1 and
    nothing is torn down; from then on handles constructed and destroyed
    one after another find the count at -1, so none of them sets the
    terminal up, resets the table or tears anything down. *)
Theorem lifecycle_after_stray_destroy (p : platform) (n : nat) (g : statics) :
  classInstances g = 0 ->
  lifecycle_run p (Destroy :: concat (replicate n [Construct; Destroy])) g
  = set_classInstances (-1) g.
Proof.
  intros Hc. unfold lifecycle_run. cbn [fold_left lifecycle_step].
  rewrite delete_elsewhere
    by (rewrite Hc; unfold fits_int, INT_MIN, INT_MAX; lia).
  rewrite Hc. change (0 - 1) with (-1).
  induction n as [|n IH]; [reflexivity|].
  cbn [replicate concat app fold_left lifecycle_step].
  rewrite new_elsewhere
    by (cbn; unfold fits_int, INT_MIN, INT_MAX; lia).
  rewrite delete_elsewhere
    by (cbn; unfold fits_int, INT_MIN, INT_MAX; lia).
  cbn [classInstances set_classInstances]. exact IH.
Qed.

Lemma lifecycle_after_stray_destroy_witness :
  calls (lifecycle_run Posix
           [Destroy; Construct; Destroy; Construct; Destroy] statics_init)
  = [].
Proof.
  exact (f_equal calls
           (lifecycle_after_stray_destroy Posix 2 statics_init eq_refl)).
Defined.

(** ** More on reading keys *)

Lemma to_char_inj_byte (k k' : Z) :
  0 <= k <= 255 -> 0 <= k' <= 255 -> to_char k = to_char k' -> k = k'.
Proof.
  intros Hk Hk' E. apply (f_equal (fun c => Z.of_N (N_of_ascii c))) in E.
  rewrite !to_char_low_byte, !Z.mod_small in E by lia. exact E.
Qed.

Lemma int_of_char_to_char (s : bool) (k : Z) :
  0 <= k <= 255 ->
  int_of_char s (to_char k) = if s && (128 <=? k) then k - 256 else k.
Proof.
  intros Hk. unfold int_of_char. rewrite to_char_low_byte, Z.mod_small by lia.
  reflexivity.
Qed.

Lemma to_char_int_of_char (s : bool) (c : ascii) :
  to_char (int_of_char s c) = c.
Proof.
  unfold int_of_char, to_char.
  assert (Hc : 0 <= Z.of_N (N_of_ascii c) < 256).
  { pose proof (N_ascii_bounded c). lia. }
  replace ((if s && (128 <=? Z.of_N (N_of_ascii c))
            then Z.of_N (N_of_ascii c) - 256
            else Z.of_N (N_of_ascii c)) mod 256)
    with (Z.of_N (N_of_ascii c)).
  - rewrite N2Z.id. apply ascii_N_embedding.
  - destruct (s && _).
    + rewrite <- (Z.mod_add _ 1 256) by lia.
      replace (Z.of_N (N_of_ascii c) - 256 + 1 * 256)
        with (Z.of_N (N_of_ascii c)) by lia.
      rewrite Z.mod_small by lia. reflexivity.
    + rewrite Z.mod_small by lia. reflexivity.
Qed.

(** The Win32 [waitForKey] on a byte that is neither the carriage return nor
    taken for a prefix. *)
Lemma win32_waitForKey_byte (b : build) (k : Z) (r : list Z) (d : Z) :
  target b = Win32 ->
  1 <= k <= 255 -> k <> 13 ->
  int_of_char (char_signed b) (to_char k) <> 224 ->
  waitForKey b {| pending := k :: r; delay := d |}
  = Ok (int_of_char (char_signed b) (to_char k), {| pending := r; delay := d |}).
Proof.
  intros Hb Hk Hcr Hp. unfold waitForKey. rewrite Hb.
  cbn [_getch pending delay mbind outcome_bind].
  destruct (ascii_eqb (to_char k) char_CR) eqn:E.
  { apply ascii_eqb_eq in E. exfalso. apply Hcr.
    apply (to_char_inj_byte k 13); [lia | lia | exact E]. }
  pose proof (int_of_char_nonzero (char_signed b) k Hk) as Hnz.
  destruct (Z.eqb_spec (int_of_char (char_signed b) (to_char k)) 0); [contradiction|].
  destruct (Z.eqb_spec (int_of_char (char_signed b) (to_char k)) 224); [contradiction|].
  reflexivity.
Qed.

(** X10.  On the Win32 build a byte from 1 to 255 that is neither the
    carriage return nor taken for a prefix is returned by [waitForKey] as the
    value of a [char]: itself below 128 or with an unsigned [char], and 256
    less with a signed [char].  Either way its low byte is the byte typed,
    which is what the line editor stores; and only that byte is consumed. *)
Theorem win32_waitForKey_keeps_byte (b : build) (k : Z) (r : list Z) (d : Z) :
  target b = Win32 ->
  1 <= k <= 255 -> k <> 13 ->
  (char_signed b = false -> k <> 224) ->
  exists v : Z,
    waitForKey b {| pending := k :: r; delay := d |}
    = Ok (v, {| pending := r; delay := d |}) /\
    v = (if char_signed b && (128 <=? k) then k - 256 else k) /\
    to_char v = to_char k.
Proof.
  intros Hb Hk Hcr Hp.
  exists (int_of_char (char_signed b) (to_char k)).
  split; [|split].
  - apply win32_waitForKey_byte; try assumption.
    rewrite int_of_char_to_char by lia.
    destruct (char_signed b) eqn:Hs; cbn [andb].
    + destruct (Z.leb_spec 128 k); lia.
    + apply Hp. reflexivity.
  - apply int_of_char_to_char. lia.
  - apply to_char_int_of_char.
Qed.

Lemma win32_waitForKey_keeps_byte_witness :
  exists v : Z,
    waitForKey (win32_build true) {| pending := [233; 97]; delay := -1 |}
    = Ok (v, {| pending := [97]; delay := -1 |}) /\
    v = -23 /\
    to_char v = to_char 233.
Proof.
  apply (win32_waitForKey_keeps_byte (win32_build true) 233 [97] (-1));
    [reflexivity | lia | lia | discriminate].
Defined.

(** X11.  On the Win32 build, the prefix byte 0 - and the prefix byte 0xE0
    when [char] is unsigned - makes [waitForKey] read a second byte: the scan
    codes 0x48, 0x50, 0x4B and 0x4D (and 0x41 to 0x44) come back as the up,
    down, left and right arrow codes; any other second byte is dropped and
    the prefix itself comes back.  Both bytes are consumed. *)
Theorem win32_waitForKey_arrows (b : build) (prefix code : Z) (r : list Z)
    (d : Z) :
  target b = Win32 ->
  prefix = 0 \/ (prefix = 224 /\ char_signed b = false) ->
  waitForKey b {| pending := prefix :: code :: r; delay := d |}
  = Ok (match win32_arrow b code with Some key => key | None => prefix end,
        {| pending := r; delay := d |}) /\
  win32_arrow b 72 = Some (ARROW_UP b) /\
  win32_arrow b 80 = Some (ARROW_DOWN b) /\
  win32_arrow b 75 = Some (ARROW_LEFT b) /\
  win32_arrow b 77 = Some (ARROW_RIGHT b) /\
  win32_arrow b 65 = Some (ARROW_UP b) /\
  win32_arrow b 66 = Some (ARROW_DOWN b) /\
  win32_arrow b 67 = Some (ARROW_RIGHT b) /\
  win32_arrow b 68 = Some (ARROW_LEFT b) /\
  (code ∉ [65; 66; 67; 68; 72; 75; 77; 80] -> win32_arrow b code = None).
Proof.
  intros Hb Hp. split; [|repeat split].
  - destruct Hp as [->|[-> Hs]].
    + apply win32_waitForKey_prefixed. exact Hb.
    + unfold waitForKey. rewrite Hb, Hs. cbn.
      destruct (win32_arrow b code); reflexivity.
  - intros Hn. rewrite !not_elem_of_cons in Hn. unfold win32_arrow.
    repeat match goal with
           | |- context [code =? ?n] =>
               destruct (Z.eqb_spec code n); [exfalso; intuition lia|]
           end.
    reflexivity.
Qed.

Lemma win32_waitForKey_arrows_witness :
  waitForKey (win32_build false) {| pending := [224; 75; 97]; delay := -1 |}
  = Ok (258, {| pending := [97]; delay := -1 |}).
Proof.
  apply (proj1 (win32_waitForKey_arrows (win32_build false) 224 75 [97] (-1)
                  eq_refl (or_intror (conj eq_refl eq_refl)))).
Defined.

(** A pending key of the Win32 build that [getKey] reports, with a value
    other than 0, taking exactly that key. *)
Lemma win32_getKey_plain (b : build) (k : Z) (r : list Z) (d : Z) :
  target b = Win32 ->
  1 <= k <= 255 ->
  int_of_char (char_signed b) (to_char k) <> 224 ->
  exists v : Z,
    getKey b {| pending := k :: r; delay := d |}
    = Ok (v, {| pending := r; delay := d |}) /\ v <> 0.
Proof.
  intros Hb Hk Hp. unfold getKey. rewrite Hb. cbn [_kbhit pending].
  destruct (Z.eq_dec k 13) as [->|Hcr].
  - exists 10. rewrite win32_waitForKey_cr by exact Hb. split; [reflexivity|lia].
  - exists (int_of_char (char_signed b) (to_char k)).
    rewrite win32_waitForKey_byte by assumption.
    split; [reflexivity|]. apply int_of_char_nonzero. exact Hk.
Qed.

(** The sample Win32 build: the key [a] is pending. *)
Lemma win32_getKey_nonzero_witness :
  getKey (win32_build true) {| pending := [97]; delay := -1 |}
  = Ok (97, {| pending := []; delay := -1 |}) /\ 97 <> 0.
Proof.
  split; [reflexivity|].
  apply (win32_getKey_nonzero (win32_build true) 97 97 [] (-1)
           {| pending := []; delay := -1 |});
    [reflexivity | discriminate | discriminate | discriminate | discriminate
    | lia | reflexivity].
Defined.

(** ** Waiting for one key, draining keys *)

Lemma waitForKey_match_reads (b : build) (match_ : Z) (ks : list Z) :
  forall (fuel : nat) (t t1 : tty),
  waitForKeys b (length (ks ++ [match_])) t = Ok (ks ++ [match_], t1) ->
  Forall (fun k => k <> match_) ks ->
  waitForKey_match_loop (S (length ks) + fuel) b match_ t = Ok t1.
Proof.
  induction ks as [|k ks IH]; intros fuel t t1 Hr Hks.
  - cbn [app length] in Hr. apply waitForKeys_cons in Hr as (ta & Hk & Hr).
    cbn in Hr. injection Hr as <-.
    cbn [length Nat.add waitForKey_match_loop]. rewrite Hk.
    cbn [mbind outcome_bind]. rewrite Z.eqb_refl. reflexivity.
  - cbn [app length] in Hr. apply waitForKeys_cons in Hr as (ta & Hk & Hr).
    apply Forall_cons in Hks as [Hne Hks].
    cbn [length Nat.add waitForKey_match_loop]. rewrite Hk.
    cbn [mbind outcome_bind].
    destruct (Z.eqb_spec k match_) as [E|_]; [contradiction|].
    exact (IH fuel ta t1 Hr Hks).
Qed.

Lemma waitForKey_match_read (b : build) (match_ : Z) :
  forall (fuel : nat) (t t1 : tty),
  waitForKey_match_loop fuel b match_ t = Ok t1 ->
  exists ks : list Z,
    waitForKeys b (length (ks ++ [match_])) t = Ok (ks ++ [match_], t1) /\
    Forall (fun k => k <> match_) ks.
Proof.
  induction fuel as [|fuel IH]; intros t t1 Hl; [discriminate|].
  cbn [waitForKey_match_loop] in Hl.
  destruct (waitForKey b t) as [[k ta]| |] eqn:Hk;
    cbn [mbind outcome_bind] in Hl; try discriminate.
  destruct (Z.eqb_spec k match_) as [->|Hne].
  - injection Hl as <-. exists []. split; [|constructor].
    cbn [app length waitForKeys]. rewrite Hk. reflexivity.
  - destruct (IH ta t1 Hl) as (ks & Hr & Hks).
    exists (k :: ks). split; [|constructor; assumption].
    cbn [app length waitForKeys]. rewrite Hk. cbn [mbind outcome_bind].
    rewrite Hr. reflexivity.
Qed.

(** X12.  [waitForKey(match)] returns exactly when the blocking reads deliver
    some keys different from [match] and then [match]: it returns after
    the first [match], every key before it has been read and dropped, and
    the keys after it are still pending.  It never returns without having
    read [match]. *)
Theorem waitForKey_match_first (b : build) (match_ : Z) (t t1 : tty) :
  waitForKey_match b match_ t = Ok t1 <->
  exists ks : list Z,
    waitForKeys b (length (ks ++ [match_])) t = Ok (ks ++ [match_], t1) /\
    Forall (fun k => k <> match_) ks.
Proof.
  unfold waitForKey_match. split.
  - apply waitForKey_match_read.
  - intros (ks & Hr & Hks).
    pose proof (waitForKeys_consumes b _ _ _ Hr) as Hlen.
    rewrite length_app in Hlen. cbn [length] in Hlen.
    replace (S (length (pending t)))
      with (S (length ks) + (length (pending t) - length ks))%nat by lia.
    apply waitForKey_match_reads; assumption.
Qed.

(** Keys that the Win32 [getKey] reports with a value other than 0. *)
Lemma clearKey_loop_plain (b : build) (d : Z) (ks : list Z) :
  forall (fuel : nat) (rest : list Z),
  target b = Win32 ->
  Forall (fun k => 1 <= k <= 255 /\
                   int_of_char (char_signed b) (to_char k) <> 224) ks ->
  clearKey_loop (length ks + fuel) b {| pending := ks ++ rest; delay := d |}
  = clearKey_loop fuel b {| pending := rest; delay := d |}.
Proof.
  induction ks as [|k ks IH]; intros fuel rest Hb Hks; [reflexivity|].
  apply Forall_cons in Hks as [[Hk Hp] Hks].
  cbn [length Nat.add app clearKey_loop].
  destruct (win32_getKey_plain b k (ks ++ rest) d Hb Hk Hp) as (v & Hg & Hv).
  rewrite Hg. cbn [mbind outcome_bind].
  destruct (Z.eqb_spec v 0); [contradiction|].
  apply IH; assumption.
Qed.

(** X13.  On the Win32 build [clearKey] takes every pending key when each is
    a byte from 1 to 255 not taken for a prefix: afterwards nothing is
    pending. *)
Theorem clearKey_drains (b : build) (ks : list Z) (d : Z) :
  target b = Win32 ->
  Forall (fun k => 1 <= k <= 255 /\
                   int_of_char (char_signed b) (to_char k) <> 224) ks ->
  clearKey b {| pending := ks; delay := d |}
  = Ok {| pending := []; delay := d |}.
Proof.
  intros Hb Hks. unfold clearKey. cbn [pending].
  replace (S (length ks)) with (length ks + 1)%nat by lia.
  rewrite <- (app_nil_r ks) at 2.
  rewrite (clearKey_loop_plain b d ks 1 [] Hb Hks).
  cbn [clearKey_loop]. rewrite getKey_no_key by reflexivity.
  rewrite Hb. reflexivity.
Qed.

Lemma clearKey_drains_witness :
  clearKey (win32_build true) {| pending := [97; 13; 233]; delay := -1 |}
  = Ok {| pending := []; delay := -1 |}.
Proof.
  apply (clearKey_drains (win32_build true) [97; 13; 233] (-1) eq_refl).
  repeat constructor; vm_compute; discriminate.
Defined.

(** X14.  On the Win32 build [clearKey] stops at the first key that
    [getKey] reports as 0 - a prefix byte 0 followed by a scan code that is
    no arrow's, as a function key sends - and leaves every key after it
    pending.  [waitForNewKey] then returns one of those keys, although it
    was pending before the call. *)
Theorem clearKey_stops_at_zero (b : build) (ks : list Z) (code : Z)
    (rest : list Z) (d : Z) :
  target b = Win32 ->
  Forall (fun k => 1 <= k <= 255 /\
                   int_of_char (char_signed b) (to_char k) <> 224) ks ->
  win32_arrow b code = None ->
  clearKey b {| pending := ks ++ 0 :: code :: rest; delay := d |}
  = Ok {| pending := rest; delay := d |} /\
  waitForNewKey b {| pending := ks ++ 0 :: code :: rest; delay := d |}
  = waitForKey b {| pending := rest; delay := d |}.
Proof.
  intros Hb Hks Ha.
  assert (Hc : clearKey b {| pending := ks ++ 0 :: code :: rest; delay := d |}
               = Ok {| pending := rest; delay := d |}).
  { unfold clearKey. cbn [pending]. rewrite length_app. cbn [length].
    replace (S (length ks + S (S (length rest))))
      with (length ks + S (S (S (length rest))))%nat by lia.
    rewrite (clearKey_loop_plain b d ks _ _ Hb Hks).
    cbn [clearKey_loop]. unfold getKey. rewrite Hb. cbn [_kbhit pending].
    rewrite (win32_waitForKey_prefixed b code rest d Hb), Ha.
    reflexivity. }
  split; [exact Hc|]. unfold waitForNewKey. rewrite Hc. reflexivity.
Qed.

Lemma clearKey_stops_at_zero_witness :
  clearKey (win32_build true) {| pending := [97; 0; 59; 98; 99]; delay := -1 |}
  = Ok {| pending := [98; 99]; delay := -1 |} /\
  waitForNewKey (win32_build true)
    {| pending := [97; 0; 59; 98; 99]; delay := -1 |}
  = Ok (98, {| pending := [99]; delay := -1 |}).
Proof.
  apply (clearKey_stops_at_zero (win32_build true) [97] 59 [98; 99] (-1) eq_refl).
  - repeat constructor; vm_compute; discriminate.
  - reflexivity.
Defined.

(** ** More on the line editor *)

Lemma waitForKey_none (b : build) (t : tty) :
  pending t = [] -> waitForKey b t = Blocked.
Proof.
  intros Hp. unfold waitForKey, posix_translateKey, getch, _getch, timeout.
  cbn [pending delay]. rewrite Hp. destruct (target b); reflexivity.
Qed.

Lemma waitForKey_cr (b : build) (t : tty) (r : list Z) :
  pending t = 13 :: r ->
  exists t1, waitForKey b t = Ok (10, t1) /\ pending t1 = r.
Proof.
  intros Hp. destruct t as [pe de]. cbn in Hp. subst pe.
  destruct (target b) eqn:Hb.
  - eexists. split; [apply win32_waitForKey_cr; exact Hb | reflexivity].
  - unfold waitForKey. rewrite Hb. eexists. split; reflexivity.
Qed.

Lemma posix_waitForKey_other (b : build) (t : tty) (k : Z) (r : list Z) :
  target b = Posix -> pending t = k :: r -> k <> ERR -> k <> 13 ->
  waitForKey b t = Undefined.
Proof.
  intros Hb Hp He Hc. unfold waitForKey. rewrite Hb.
  destruct t as [pe de]. cbn in Hp. subst pe.
  apply (posix_translateKey_other k r (-1) He Hc).
Qed.

Section SpelledFacts.
Context {T : Type} `{Console T}.

Lemma backspace_str (pos : COORD_2D) (str : list ascii) (c : T) :
  fst (backspace pos str c) = removelast str.
Proof.
  unfold backspace. destruct str as [|a str]; [reflexivity|].
  destruct (x pos =? 0); reflexivity.
Qed.

Lemma pass_backspace (b : build) (delineators str : list ascii) (w : world T)
    (k : Z) (t1 : tty) :
  waitForKey b (keys w) = Ok (k, t1) ->
  to_char k = char_BS ->
  exists c' : T,
    waitForInput_pass b delineators str w
    = Ok (Continue (removelast str) {| keys := t1; screen := c' |}).
Proof.
  intros Hk Hbs. unfold waitForInput_pass.
  rewrite (echoKey_reads b w k t1 Hk). cbn [mbind outcome_bind].
  rewrite Hbs. change (ascii_eqb char_BS char_BS) with true. cbn iota.
  cbn [screen keys].
  pose proof (backspace_str (getCurPos (screen w)) str
                (output_char char_BS (screen w))) as Hs.
  destruct (backspace _ _ _) as [s1 c1]. cbn [fst] in Hs. subst s1.
  exists c1. reflexivity.
Qed.

Lemma loop_spelled (b : build) (delineators : list ascii) (ks : list Z) :
  forall (str : list ascii) (w : world T) (t1 : tty),
  waitForKeys b (length ks) (keys w) = Ok (ks, t1) ->
  Forall (fun k => to_char k = char_BS \/ to_char k ∉ delineators) ks ->
  exists c' : T, forall fuel : nat,
    waitForInput_loop (length ks + fuel) b delineators str w
    = waitForInput_loop fuel b delineators (spelled str ks)
        {| keys := t1; screen := c' |}.
Proof.
  induction ks as [|k ks IH]; intros str w t1 Hr Hks.
  - cbn in Hr. injection Hr as <-. exists (screen w). intros fuel.
    destruct w; reflexivity.
  - cbn [length] in Hr. apply waitForKeys_cons in Hr as (ta & Hk & Hr).
    apply Forall_cons in Hks as [Hk1 Hks].
    assert (Hp : exists c1 : T,
               waitForInput_pass b delineators str w
               = Ok (Continue (spelled str [k]) {| keys := ta; screen := c1 |})).
    { unfold spelled. cbn [fold_left].
      destruct (ascii_eqb (to_char k) char_BS) eqn:E.
      - apply ascii_eqb_eq in E. apply (pass_backspace b _ _ _ k); assumption.
      - apply ascii_eqb_neq in E. destruct Hk1 as [Hk1|Hk1]; [contradiction|].
        eexists. apply (pass_plain b _ _ _ k); assumption. }
    destruct Hp as (c1 & Hp).
    destruct (IH (spelled str [k]) {| keys := ta; screen := c1 |} t1 Hr Hks)
      as (c' & Hl).
    exists c'. intros fuel. cbn [length Nat.add waitForInput_loop].
    rewrite Hp. cbn [mbind outcome_bind]. rewrite Hl. reflexivity.
Qed.

(** X15.  The string [waitForInput] returns is what the keys spell: each key
    up to the delimiter adds its character, except that a backspace deletes
    the character before it, or nothing when the buffer is empty.  As in
    C2, the keys are those [waitForKey] delivers, the delimiter is not the
    backspace, and after a delimiter other than the newline the keys up to
    the first newline are read and dropped.  The keys after that are still
    pending. *)
Theorem waitForInput_spells (b : build) (delineators : list ascii)
    (ks : list Z) (d : Z) (rest : list Z) (t0 t1 : tty) (c : T) :
  waitForKeys b (length (ks ++ d :: rest)) t0 = Ok (ks ++ d :: rest, t1) ->
  Forall (fun k => to_char k = char_BS \/ to_char k ∉ delineators) ks ->
  to_char d <> char_BS ->
  to_char d ∈ delineators ->
  (to_char d = char_NL -> rest = []) ->
  (to_char d <> char_NL ->
   exists r, rest = r ++ [10] /\ Forall (fun k => k <> 10) r) ->
  exists c' : T,
    waitForInput b delineators {| keys := t0; screen := c |}
    = Ok (spelled [] ks, {| keys := t1; screen := c' |}).
Proof.
  intros Hr Hks Hbs Hd Hnl Hrest.
  pose proof (waitForKeys_consumes b _ _ _ Hr) as Hlen.
  rewrite length_app, length_cons in Hlen.
  destruct (waitForKeys_app b ks (d :: rest) _ _ Hr) as (ta & Hra & Hrb).
  cbn [length] in Hrb. apply waitForKeys_cons in Hrb as (tb & Hkd & Hrb).
  destruct (loop_spelled b delineators ks [] {| keys := t0; screen := c |} ta
              Hra Hks) as (c1 & Hl).
  unfold waitForInput. cbn [keys].
  set (fuel := S (length (pending t0))).
  assert (Hloop : waitForInput_loop fuel b delineators []
                    {| keys := t0; screen := c |}
                  = Ok (to_char d, spelled [] ks,
                        {| keys := tb; screen := output_char (to_char d) c1 |})).
  { replace fuel with (length ks + S (length (pending t0) - length ks))%nat
      by (subst fuel; lia).
    rewrite Hl. cbn [waitForInput_loop].
    rewrite (pass_delimiter b delineators (spelled [] ks)
               {| keys := ta; screen := c1 |} d tb Hkd Hbs Hd).
    reflexivity. }
  rewrite Hloop. cbn [mbind outcome_bind].
  destruct (ascii_eqb (to_char d) char_NL) eqn:Enl.
  - apply ascii_eqb_eq in Enl. rewrite (Hnl Enl) in *.
    cbn in Hrb. injection Hrb as <-. eexists. reflexivity.
  - apply ascii_eqb_neq in Enl. destruct (Hrest Enl) as (r & -> & Hr10).
    rewrite length_app in Hlen. cbn [length] in Hlen.
    replace fuel with (S (length r) + (length (pending t0) - length r))%nat
      by (subst fuel; lia).
    rewrite <- (int_of_char_NL (char_signed b)) in Hrb, Hr10.
    rewrite (skip_rest b r _ {| keys := tb;
                               screen := output_char (to_char d) c1 |}
               t1 Hrb Hr10).
    eexists. reflexivity.
Qed.

(** X16.  [waitForInput] does not return before a delimiter is read: when the
    keys delivered, every one a backspace or no delimiter, use up what is
    pending, it is still waiting. *)
Theorem waitForInput_waits_for_delimiter (b : build)
    (delineators : list ascii) (ks : list Z) (t0 t1 : tty) (c : T) :
  waitForKeys b (length ks) t0 = Ok (ks, t1) ->
  pending t1 = [] ->
  Forall (fun k => to_char k = char_BS \/ to_char k ∉ delineators) ks ->
  waitForInput b delineators {| keys := t0; screen := c |} = Blocked.
Proof.
  intros Hr Hp Hks.
  pose proof (waitForKeys_consumes b _ _ _ Hr) as Hlen.
  destruct (loop_spelled b delineators ks [] {| keys := t0; screen := c |} t1
              Hr Hks) as (c1 & Hl).
  unfold waitForInput. cbn [keys].
  replace (S (length (pending t0)))
    with (length ks + S (length (pending t0) - length ks))%nat by lia.
  rewrite Hl. cbn [waitForInput_loop]. unfold waitForInput_pass, echoKey.
  cbn [keys]. rewrite (waitForKey_none b t1 Hp). reflexivity.
Qed.

(** X17.  The Enter key ends a newline-delimited line on either build: with
    a carriage return pending first, [waitForInput] returns the empty
    string at once, has echoed a newline, and leaves the keys after it
    pending. *)
Theorem waitForInput_enter (b : build) (w : world T) (r : list Z) :
  pending (keys w) = 13 :: r ->
  exists t1 : tty,
    waitForInput b [char_NL] w
    = Ok ([], {| keys := t1; screen := output_char char_NL (screen w) |}) /\
    pending t1 = r.
Proof.
  intros Hp. destruct (waitForKey_cr b (keys w) r Hp) as (t1 & Hk & Hr).
  exists t1. split; [|exact Hr].
  unfold waitForInput. rewrite Hp. cbn [length waitForInput_loop].
  rewrite (pass_delimiter b [char_NL] [] w 10 t1 Hk).
  - reflexivity.
  - discriminate.
  - apply list_elem_of_singleton. reflexivity.
Qed.

(** X18.  On the POSIX build every way of reading a key runs into the
    missing [return] of [posix_translateKey] as soon as the first pending key
    is anything but the carriage return: [echoKey], [waitForInput],
    [waitForKey(match)], [clearKey] and [waitForNewKey] all leave defined
    behaviour at that key. *)
Theorem posix_key_readers_undefined (b : build) (delineators : list ascii)
    (match_ : Z) (w : world T) (k : Z) (r : list Z) :
  target b = Posix ->
  pending (keys w) = k :: r -> k <> ERR -> k <> 13 ->
  echoKey b w = Undefined /\
  waitForInput b delineators w = Undefined /\
  waitForKey_match b match_ (keys w) = Undefined /\
  clearKey b (keys w) = Undefined /\
  waitForNewKey b (keys w) = Undefined.
Proof.
  intros Hb Hp He Hc.
  pose proof (posix_waitForKey_other b (keys w) k r Hb Hp He Hc) as Hk.
  assert (Hg : getKey b (keys w) = Undefined).
  { unfold getKey. rewrite Hb. destruct (keys w) as [pe de]. cbn in Hp.
    subst pe. apply (posix_translateKey_other k r 0 He Hc). }
  assert (Hclear : clearKey b (keys w) = Undefined).
  { unfold clearKey. cbn [clearKey_loop]. rewrite Hg. reflexivity. }
  repeat split.
  - unfold echoKey. rewrite Hk. reflexivity.
  - unfold waitForInput. cbn [waitForInput_loop].
    unfold waitForInput_pass, echoKey. rewrite Hk. reflexivity.
  - unfold waitForKey_match. cbn [waitForKey_match_loop]. rewrite Hk.
    reflexivity.
  - exact Hclear.
  - unfold waitForNewKey. rewrite Hclear. reflexivity.
Qed.

End SpelledFacts.

Ltac solve_edit_keys :=
  repeat match goal with
         | |- Forall _ (_ :: _) => apply List.Forall_cons
         | |- Forall _ [] => apply List.Forall_nil
         end;
  first [ left; reflexivity
        | right; vm_compute; intros Hin;
          repeat (inversion Hin as [|? ? ? Hin']; clear Hin;
                  rename Hin' into Hin) ].

Lemma waitForInput_spells_witness :
  exists c' : grid,
    waitForInput (win32_build true) [char_NL; ","%char]
      {| keys := script [97; 8; 8; 98; 99; 8; 100; 44; 120; 10; 121];
         screen := blank_grid 80 25 0 0 |}
    = Ok (["b"; "d"]%char, {| keys := script [121]; screen := c' |}).
Proof.
  apply (waitForInput_spells (win32_build true) [char_NL; ","%char]
           [97; 8; 8; 98; 99; 8; 100] 44 [120; 10]
           (script [97; 8; 8; 98; 99; 8; 100; 44; 120; 10; 121]) (script [121])
           (blank_grid 80 25 0 0)).
  - reflexivity.
  - solve_edit_keys.
  - vm_compute. discriminate.
  - vm_compute. right. left.
  - vm_compute. discriminate.
  - intros _. exists [120]. split; [reflexivity|].
    repeat constructor. lia.
Defined.

Lemma waitForInput_waits_for_delimiter_witness :
  waitForInput (win32_build true) [char_NL]
    {| keys := script [97; 8; 98]; screen := blank_grid 80 25 0 0 |}
  = Blocked.
Proof.
  apply (waitForInput_waits_for_delimiter (win32_build true) [char_NL]
           [97; 8; 98] (script [97; 8; 98]) (script [])
           (blank_grid 80 25 0 0)).
  - reflexivity.
  - reflexivity.
  - solve_edit_keys.
Defined.

Lemma waitForInput_enter_witness :
  exists t1 : tty,
    waitForInput (posix_build true) [char_NL]
      {| keys := script [13; 97]; screen := blank_grid 80 25 0 0 |}
    = Ok ([], {| keys := t1;
                 screen := output_char char_NL (blank_grid 80 25 0 0) |}) /\
    pending t1 = [97].
Proof.
  apply (waitForInput_enter (posix_build true)
           {| keys := script [13; 97]; screen := blank_grid 80 25 0 0 |} [97]).
  reflexivity.
Defined.

Lemma posix_key_readers_undefined_witness :
  echoKey (posix_build true)
    {| keys := script [97; 10]; screen := blank_grid 80 25 0 0 |}
  = Undefined /\
  waitForInput (posix_build true) [char_NL]
    {| keys := script [97; 10]; screen := blank_grid 80 25 0 0 |}
  = Undefined /\
  waitForKey_match (posix_build true) 10 (script [97; 10]) = Undefined /\
  clearKey (posix_build true) (script [97; 10]) = Undefined /\
  waitForNewKey (posix_build true) (script [97; 10]) = Undefined.
Proof.
  apply (posix_key_readers_undefined (posix_build true) [char_NL] 10
           {| keys := script [97; 10]; screen := blank_grid 80 25 0 0 |}
           97 [10]);
    [reflexivity | reflexivity | unfold ERR; lia | lia].
Defined.

Section ReturnedString.
Context {T : Type} `{Console T}.

Lemma Forall_removelast {A : Type} (P : A -> Prop) (l : list A) :
  Forall P l -> Forall P (removelast l).
Proof.
  induction l as [|a l IH]; intros Hl; [constructor|].
  apply Forall_cons in Hl as [Ha Hl]. cbn [removelast].
  destruct l; [constructor|]. constructor; [exact Ha | apply IH; exact Hl].
Qed.

Lemma pass_keeps_clean (b : build) (delineators str : list ascii) (w : world T)
    (r : pass T) :
  Forall (fun ch => ch <> char_BS /\ ch ∉ delineators) str ->
  waitForInput_pass b delineators str w = Ok r ->
  match r with
  | Continue str1 _ => Forall (fun ch => ch <> char_BS /\ ch ∉ delineators) str1
  | Leave input str1 _ =>
      Forall (fun ch => ch <> char_BS /\ ch ∉ delineators) str1 /\
      input ∈ delineators
  end.
Proof.
  intros Hs. unfold waitForInput_pass.
  destruct (echoKey b w) as [[i w1]| |]; cbn [mbind outcome_bind];
    try discriminate.
  destruct (ascii_eqb (to_char i) char_BS) eqn:Eb.
  - pose proof (backspace_str (getCurPos (screen w)) str (screen w1)) as Hb.
    destruct (backspace _ _ _) as [s1 c1]. cbn [fst] in Hb. subst s1.
    intros [= <-]. apply Forall_removelast. exact Hs.
  - destruct (existsb (ascii_eqb (to_char i)) delineators) eqn:Ed.
    + intros [= <-]. split; [exact Hs|].
      apply existsb_exists in Ed as (ch & Hin & Heq).
      apply ascii_eqb_eq in Heq. subst ch. apply list_elem_of_In. exact Hin.
    + intros [= <-]. apply Forall_app. split; [exact Hs|].
      constructor; [|constructor]. split.
      * apply ascii_eqb_neq. exact Eb.
      * intros Hin. apply list_elem_of_In in Hin.
        assert (Ht : existsb (ascii_eqb (to_char i)) delineators = true).
        { apply existsb_exists. exists (to_char i). split; [exact Hin|].
          apply ascii_eqb_eq. reflexivity. }
        congruence.
Qed.

Lemma loop_keeps_clean (b : build) (delineators : list ascii) :
  forall (fuel : nat) (str : list ascii) (w : world T)
         (input : ascii) (str1 : list ascii) (w1 : world T),
  Forall (fun ch => ch <> char_BS /\ ch ∉ delineators) str ->
  waitForInput_loop fuel b delineators str w = Ok (input, str1, w1) ->
  Forall (fun ch => ch <> char_BS /\ ch ∉ delineators) str1 /\
  input ∈ delineators.
Proof.
  induction fuel as [|fuel IH]; intros str w input str1 w1 Hs Hl;
    [discriminate|].
  cbn [waitForInput_loop] in Hl.
  destruct (waitForInput_pass b delineators str w) as [r| |] eqn:Hp;
    cbn [mbind outcome_bind] in Hl; try discriminate.
  pose proof (pass_keeps_clean b delineators str w r Hs Hp) as Hr.
  destruct r as [s2 w2|i2 s2 w2].
  - exact (IH s2 w2 input str1 w1 Hr Hl).
  - injection Hl as <- <- <-. exact Hr.
Qed.

(** X19.  Whatever the keys, a string that [waitForInput] returns contains
    neither a backspace character nor any delimiter character. *)
Theorem waitForInput_result_clean (b : build) (delineators : list ascii)
    (w w' : world T) (str : list ascii) :
  waitForInput b delineators w = Ok (str, w') ->
  Forall (fun ch => ch <> char_BS /\ ch ∉ delineators) str.
Proof.
  unfold waitForInput. intros Hw.
  destruct (waitForInput_loop _ b delineators [] w) as [[[input s1] w1]| |] eqn:Hl;
    cbn [mbind outcome_bind] in Hw; try discriminate.
  destruct (loop_keeps_clean b delineators _ [] w input s1 w1
              (List.Forall_nil _) Hl) as [Hc _].
  destruct (if ascii_eqb input char_NL then _ else _) as [w2| |];
    cbn [mbind outcome_bind] in Hw; try discriminate.
  injection Hw as <- _. exact Hc.
Qed.

End ReturnedString.

Lemma waitForInput_result_clean_witness :
  let w' := {| keys := script [];
               screen := echo_all [10]
                 (output_char "c"%char
                    (moveCursor 1 0 (output_char char_SP
                       (moveCursor 1 0 (output_char char_BS
                          (echo_all [97; 98] (blank_grid 80 25 0 0))))))) |} in
  waitForInput (win32_build true) [char_NL]
    {| keys := script [97; 98; 8; 99; 10]; screen := blank_grid 80 25 0 0 |}
  = Ok (["a"; "c"]%char, w') /\
  Forall (fun ch => ch <> char_BS /\ ch ∉ [char_NL]) ["a"; "c"]%char.
Proof.
  intros w'. split; [reflexivity|].
  apply (waitForInput_result_clean (win32_build true) [char_NL]
           {| keys := script [97; 98; 8; 99; 10];
              screen := blank_grid 80 25 0 0 |} w').
  reflexivity.
Defined.

(** ** More on throttling and on a fresh controller *)

Lemma throttle_all_target (ticks : nat -> Z) (CLOCKS_PER_SEC : Z)
    (intervals : list Z) :
  forall (h : handle) (e : timing),
  throttleInitialized h = true ->
  throttleInitialized (fst (throttle_all ticks CLOCKS_PER_SEC intervals h e))
  = true /\
  throttleLast (fst (throttle_all ticks CLOCKS_PER_SEC intervals h e))
  = fold_left (tick_add CLOCKS_PER_SEC) intervals (throttleLast h).
Proof.
  unfold throttle_all.
  induction intervals as [|ms l IH]; intros h e Hi.
  - cbn. split; [exact Hi | reflexivity].
  - cbn [fold_left fst snd].
    rewrite (throttle_later ticks CLOCKS_PER_SEC ms h e Hi). cbn [fst snd].
    match goal with
    | |- context [fold_left _ l (?h1, ?e1)] =>
        destruct (IH h1 e1 eq_refl) as [I1 I2]
    end.
    rewrite I1, I2. cbn [throttleLast]. split; reflexivity.
Qed.

(** X20.  The schedule of [throttle] is anchored at the first call: after a
    first call and any number of later ones, the target is what the later
    calls' intervals make, one [+=] after the other, of the clock reading of
    the first call - whatever the clock read afterwards and whether or not a
    call slept.  A call that comes late therefore does not move the
    schedule; the interval of the first call is never used. *)
Theorem throttle_schedule_anchored (ticks : nat -> Z)
    (CLOCKS_PER_SEC : Z) (ms0 : Z) (intervals : list Z) (junk : Z)
    (e : timing) :
  throttleInitialized
    (fst (throttle_all ticks CLOCKS_PER_SEC (ms0 :: intervals)
            {| throttleInitialized := false; throttleLast := junk |} e))
  = true /\
  throttleLast
    (fst (throttle_all ticks CLOCKS_PER_SEC (ms0 :: intervals)
            {| throttleInitialized := false; throttleLast := junk |} e))
  = fold_left (tick_add CLOCKS_PER_SEC) intervals (ticks (clock_calls e)).
Proof.
  unfold throttle_all. cbn [fold_left fst snd].
  rewrite throttle_first by reflexivity.
  exact (throttle_all_target ticks CLOCKS_PER_SEC intervals
           {| throttleInitialized := true;
              throttleLast := ticks (clock_calls e) |}
           {| clock_calls := S (clock_calls e); slept := slept e |} eq_refl).
Qed.

(** X21.  Right after the construction that sets the terminal up, every id
    of the table is unregistered.  Activating one on the Win32 build gives
    the attribute word 0, black on black, provided 0 is none of the seven
    colour codes; on the POSIX build it gives colour pair [colorId + 1]
    without [A_BOLD]. *)
Theorem color_after_construction (p : platform) (pal : palette)
    (cur : curses_attr) (junk colorId : Z) (g : statics) :
  classInstances g = 0 ->
  tables_sized g ->
  0 <= colorId < 256 ->
  0 ∉ [COLOR_RED pal; COLOR_GREEN pal; COLOR_YELLOW pal; COLOR_BLUE pal;
       COLOR_MAGENTA pal; COLOR_CYAN pal; COLOR_WHITE pal] ->
  color p pal cur colorId (snd (ConsoleController_new p junk g))
  = Ok (match p with
        | Win32 => 0
        | Posix => COLOR_PAIR cur (colorId + 1)
        end).
Proof.
  intros Hc [Hl1 Hl2] Hr Hz. rewrite new_at_zero by exact Hc.
  unfold color. rewrite (proj2 (in_table_range colorId) Hr).
  destruct p; cbn [reset_tables host set_classInstances set_colors
                   set_foreBoldFlags colors foreBoldFlags].
  - rewrite fill_table_full by exact Hl1.
    rewrite lookup_replicate_2 by lia.
    rewrite !not_elem_of_cons in Hz.
    unfold win32_colorFlags, COLOR_default. cbv zeta.
    cbn [foreground background foreBold backBold].
    repeat match goal with
           | |- context [0 =? ?a] =>
               destruct (Z.eqb_spec 0 a); [exfalso; intuition congruence|]
           end.
    reflexivity.
  - rewrite fill_table_full by exact Hl2.
    rewrite lookup_replicate_2 by lia.
    rewrite wrap_int_fits by (unfold fits_int, INT_MIN, INT_MAX; lia).
    reflexivity.
Qed.

Lemma color_after_construction_witness :
  color Win32 curses_palette ncurses_attr 7
    (snd (ConsoleController_new Win32 0 statics_init))
  = Ok 0.
Proof.
  apply (color_after_construction Win32 curses_palette ncurses_attr 0 7
           statics_init).
  - reflexivity.
  - split; reflexivity.
  - lia.
  - vm_compute. intros Hin.
    repeat (inversion Hin as [|? ? ? Hin']; clear Hin; rename Hin' into Hin).
Defined.
